(** * EMR Serverless Livy client: a shallow embedding of [livytest.py]

    The class [EMRServerlessClient] is modelled as a record ([Client]) whose
    methods are functions in a small state-and-exception monad.  The outside
    world (the request signer, the HTTP service, the wall clock) is given by
    an environment [Env] and a [World] holding the clock, the number of
    exchanges performed so far and the chronological log of effects. *)

From Stdlib Require Import ZArith List String Ascii Bool Lia.
Import ListNotations.

Set Warnings "-register-all".

Local Open Scope string_scope.
Local Open Scope list_scope.
Local Open Scope Z_scope.

(** ** Data *)

(** Parsed JSON values, as [response.json()] and the [data] dictionaries
    have them (numbers are kept integral). *)
Inductive JSON : Type :=
| JNull
| JBool (b : bool)
| JNum (n : Z)
| JStr (s : string)
| JList (items : list JSON)
| JDict (fields : list (string * JSON)).

(** Python truthiness, as used by [if data] and [data if data else None]. *)
Definition json_truthy (j : JSON) : bool :=
  match j with
  | JNull => false
  | JBool b => b
  | JNum n => negb (n =? 0)
  | JStr s => negb (String.eqb s "")
  | JList items => match items with [] => false | _ => true end
  | JDict fields => match fields with [] => false | _ => true end
  end.

(** [d.get(key)] on a dictionary kept as an association list. *)
Fixpoint dict_get (key : string) (fields : list (string * JSON)) : option JSON :=
  match fields with
  | [] => None
  | (k, v) :: rest => if String.eqb k key then Some v else dict_get key rest
  end.

(** [value == 'literal']: only a JSON string can equal a Python [str]. *)
Definition json_is_str (j : JSON) (s : string) : bool :=
  match j with
  | JStr s' => String.eqb s' s
  | _ => false
  end.

(** [value in [s1, s2, ...]] for a list of string literals. *)
Definition json_in_strs (j : JSON) (l : list string) : bool :=
  existsb (json_is_str j) l.

Definition Headers : Type := list (string * string).

(** Header names are looked up without regard to (ASCII) case, as the
    case-insensitive dictionary of [requests] does. *)
Definition lower_ascii (c : ascii) : ascii :=
  let n := nat_of_ascii c in
  if (Nat.leb 65 n && Nat.leb n 90)%bool then ascii_of_nat (n + 32) else c.

Fixpoint lower (s : string) : string :=
  match s with
  | EmptyString => EmptyString
  | String c rest => String (lower_ascii c) (lower rest)
  end.

Fixpoint headers_get (name : string) (h : Headers) : option string :=
  match h with
  | [] => None
  | (k, v) :: rest =>
      if String.eqb (lower k) (lower name) then Some v else headers_get name rest
  end.

(** A [requests.Response]: [json_body] is what [response.json()] parses the
    body to, [None] when the body is not JSON (the call then raises). *)
Record Response : Type := mkResponse {
  status_code : Z;
  resp_headers : Headers;
  text : string;
  json_body : option JSON
}.

(** [bool(response)] is [response.ok] in [requests]: false exactly for the
    statuses on which [raise_for_status] raises, 400 to 599. *)
Definition response_ok (r : Response) : bool :=
  negb ((400 <=? status_code r) && (status_code r <? 600)).

(** [not response] for a value that is [None] or a response. *)
Definition not_response (response : option Response) : bool :=
  match response with
  | None => true
  | Some r => negb (response_ok r)
  end.

(** [not s] for a value that is [None] or a string. *)
Definition not_str (s : option string) : bool :=
  match s with
  | None => true
  | Some v => String.eqb v ""
  end.

(** An [AWSRequest], and the request that goes on the wire. *)
Record Request : Type := mkRequest {
  req_method : string;
  req_url : string;
  req_data : option JSON;
  req_headers : Headers
}.

(** The object's fields after [__init__]. *)
Record Client : Type := mkClient {
  endpoint : string;
  headers : Headers;
  role_arn : string;
  timeout : Z;
  session_url : option string
}.

(** [EMRServerlessClient(application_id, region, role_arn, timeout=300)]. *)
Definition init (application_id region role : string) (tmo : Z) : Client :=
  {| endpoint := ("https://" ++ application_id
                  ++ ".livy.emr-serverless-services." ++ region
                  ++ ".amazonaws.com")%string;
     headers := [("Content-Type", "application/json")];
     role_arn := role;
     timeout := tmo;
     session_url := None |}.

Definition default_timeout : Z := 300.

Definition set_session_url (c : Client) (u : option string) : Client :=
  {| endpoint := endpoint c; headers := headers c; role_arn := role_arn c;
     timeout := timeout c; session_url := u |}.

(** ** The outside world *)

(** What one call of [requests.get/post/delete] does: it takes [latency]
    seconds and then either raises a [RequestException] or hands back a
    response. *)
Inductive Reply : Type :=
| NetFails (latency : Z)
| Responds (latency : Z) (response : Response).

Definition latency_of (r : Reply) : Z :=
  match r with
  | NetFails l => l
  | Responds l _ => l
  end.

(** The collaborators of the client: the signer ([None] when it raises,
    otherwise the prepared request; it may depend on the time of signing) and
    the service, which answers the [i]-th exchange of a run. *)
Record Env : Type := mkEnv {
  add_auth : Z -> Request -> option Request;
  exchange : nat -> Request -> Reply
}.

(** The effects of a run, oldest first. *)
Inductive Event : Type :=
| ESign (at_time : Z) (request : Request)
| EExchange (index : nat) (wire : Request)
| ESleep (seconds : Z).

Record World : Type := mkWorld {
  now : Z;
  sent : nat;
  trace : list Event
}.

Record State : Type := mkState {
  self : Client;
  world : World
}.

Definition log (e : Event) (w : World) : World :=
  {| now := now w; sent := sent w; trace := trace w ++ [e] |}.

Definition advance (d : Z) (w : World) : World :=
  {| now := now w + d; sent := sent w; trace := trace w |}.

Definition count_exchange (w : World) : World :=
  {| now := now w; sent := S (sent w); trace := trace w |}.

Definition with_world (f : World -> World) (st : State) : State :=
  {| self := self st; world := f (world st) |}.

(** ** Exceptions and the monad *)

(** The messages of the bare [Exception]s the client raises. *)
Inductive Message : Type :=
| CreateSessionFailed (detail : option string)
| NoSessionLocation
| NoActiveSession
| SubmitStatementFailed (detail : option string)
| NoStatementLocation.

Inductive exn : Type :=
| RequestException
| SignerError
| UnsupportedMethod (method : string)
| NegativeSleep
| JSONDecodeError
| AttributeError
| PyException (msg : Message).

Inductive outcome (A : Type) : Type :=
| Return (a : A)
| Raise (e : exn)
| OutOfFuel.

Arguments Return {A} a.
Arguments Raise {A} e.
Arguments OutOfFuel {A}.

Definition M (A : Type) : Type := State -> outcome A * State.

Definition ret {A : Type} (a : A) : M A := fun st => (Return a, st).

Definition raise {A : Type} (e : exn) : M A := fun st => (Raise e, st).

Definition out_of_fuel {A : Type} : M A := fun st => (OutOfFuel, st).

Definition bind {A B : Type} (m : M A) (k : A -> M B) : M B :=
  fun st =>
    match m st with
    | (Return a, st') => k a st'
    | (Raise e, st') => (Raise e, st')
    | (OutOfFuel, st') => (OutOfFuel, st')
    end.

Notation "x <- m ;; k" := (bind m (fun x => k))
  (at level 61, m at next level, right associativity).
Notation "m ;;; k" := (bind m (fun _ => k))
  (at level 61, right associativity).

Definition get_self : M Client := fun st => (Return (self st), st).

Definition put_session_url (u : option string) : M unit :=
  fun st => (Return tt, {| self := set_session_url (self st) u; world := world st |}).

(** [time.time()]. *)
Definition time_time : M Z := fun st => (Return (now (world st)), st).

(** [time.sleep(d)]: a negative length raises [ValueError]. *)
Definition time_sleep (d : Z) : M unit :=
  fun st =>
    if d <? 0 then (Raise NegativeSleep, st)
    else (Return tt, with_world (fun w => advance d (log (ESleep d) w)) st).

(** Strings and values of the dispatcher. *)
Definition base_backoff_seconds : Z := 2.

Definition retryable_statuses : list Z := [429; 500; 502; 503; 504].

Definition retryable (status : Z) : bool :=
  existsb (Z.eqb status) retryable_statuses.

Definition is_2xx (status : Z) : bool :=
  (200 <=? status) && (status <? 300).

(** [json.dumps(data) if data else None] (the serialisation itself is not
    modelled: the body is kept as the value). *)
Definition dumps_if (data : option JSON) : option JSON :=
  match data with
  | Some d => if json_truthy d then Some d else None
  | None => None
  end.

Definition supported (method : string) : bool :=
  String.eqb method "GET" || String.eqb method "POST" || String.eqb method "DELETE".

(** What is put on the wire for a prepared request: only POST carries the
    body. *)
Definition wire_request (method : string) (prepped : Request) (data : option JSON) : Request :=
  {| req_method := method;
     req_url := req_url prepped;
     req_data := if String.eqb method "POST" then dumps_if data else None;
     req_headers := req_headers prepped |}.

Section Dispatcher.

Variable env : Env.

(** [self.signer.add_auth(request); request.prepare()]. *)
Definition signer_add_auth (request : Request) : M Request :=
  fun st =>
    let t := now (world st) in
    let st' := with_world (log (ESign t request)) st in
    match add_auth env t request with
    | Some prepped => (Return prepped, st')
    | None => (Raise SignerError, st')
    end.

(** One call of [requests.get], [requests.post] or [requests.delete]; the
    reply is handed back as a value, the caller plays the [try]/[except]. *)
Definition requests_send (wire : Request) : M Reply :=
  fun st =>
    let i := sent (world st) in
    let reply := exchange env i wire in
    (Return reply,
     with_world (fun w => advance (latency_of reply)
                            (count_exchange (log (EExchange i wire) w))) st).

(** The [while retry_count < max_retries] loop of [_send_request]. *)
Fixpoint send_loop (fuel : nat) (method url : string) (data : option JSON)
    (max_retries retry_count : Z) {struct fuel} : M (option Response) :=
  if retry_count <? max_retries then
    match fuel with
    | O => out_of_fuel
    | S fuel' =>
        c <- get_self ;;
        prepped <- signer_add_auth
                     {| req_method := method; req_url := url;
                        req_data := dumps_if data; req_headers := headers c |} ;;
        if supported method then
          reply <- requests_send (wire_request method prepped data) ;;
          match reply with
          | Responds _ response =>
              if (200 <=? status_code response) && (status_code response <? 300)
              then ret (Some response)
              else if retryable (status_code response) then
                let retry_count := retry_count + 1 in
                let wait_time := 2 ^ retry_count in
                time_sleep wait_time ;;;
                send_loop fuel' method url data max_retries retry_count
              else ret (Some response)
          | NetFails _ =>
              let retry_count := retry_count + 1 in
              if retry_count <? max_retries then
                let wait_time := 2 ^ retry_count in
                time_sleep wait_time ;;;
                send_loop fuel' method url data max_retries retry_count
              else raise RequestException
          end
        else raise (UnsupportedMethod method)
    end
  else ret None.

(** [_send_request(self, method, path, data=None, max_retries=3)]. *)
Definition _send_request (method path : string) (data : option JSON)
    (max_retries : Z) : M (option Response) :=
  c <- get_self ;;
  let url := (endpoint c ++ path)%string in
  send_loop (Z.to_nat max_retries) method url data max_retries 0.

Definition default_max_retries : Z := 3.

End Dispatcher.

(** ** The session and statement operations *)

(** [f"{value}"] for a value that is [None] or a string. *)
Definition format_str (s : option string) : string :=
  match s with
  | Some v => v
  | None => "None"
  end.

(** [response.json()]. *)
Definition response_json (r : Response) : M JSON :=
  match json_body r with
  | Some j => ret j
  | None => raise JSONDecodeError
  end.

(** [value.get(key, default)]: only a dictionary has [get]. *)
Definition json_get (j : JSON) (key : string) (default : JSON) : M JSON :=
  match j with
  | JDict fields =>
      ret (match dict_get key fields with Some v => v | None => default end)
  | _ => raise AttributeError
  end.

(** [response.text if response else <no response>]. *)
Definition detail_of (r : Response) : option string :=
  if response_ok r then Some (text r) else None.

(** The [data] dictionary of [create_session]. *)
Definition session_request_data (c : Client) : JSON :=
  JDict [("kind", JStr "pyspark");
         ("heartbeatTimeoutInSecond", JNum 60);
         ("conf", JDict [("emr-serverless.session.executionRoleArn",
                          JStr (role_arn c))])].

Section Controllers.

Variable env : Env.

Definition create_session : M JSON :=
  c <- get_self ;;
  let data := session_request_data c in
  response <- _send_request env "POST" "/sessions" (Some data) default_max_retries ;;
  match response with
  | None => raise (PyException (CreateSessionFailed None))
  | Some r =>
      if negb (response_ok r) || (300 <=? status_code r)
      then raise (PyException (CreateSessionFailed (detail_of r)))
      else
        put_session_url (headers_get "location" (resp_headers r)) ;;;
        c <- get_self ;;
        if not_str (session_url c)
        then raise (PyException NoSessionLocation)
        else response_json r
  end.

(** The [while time.time() - start_time < self.timeout] loop of
    [wait_for_session_ready]. *)
Fixpoint wait_ready_loop (fuel : nat) (poll_interval start_time : Z)
    {struct fuel} : M bool :=
  t <- time_time ;;
  c <- get_self ;;
  if t - start_time <? timeout c then
    match fuel with
    | O => out_of_fuel
    | S fuel' =>
        response <- _send_request env "GET" (format_str (session_url c)) None
                      default_max_retries ;;
        match response with
        | None =>
            time_sleep poll_interval ;;;
            wait_ready_loop fuel' poll_interval start_time
        | Some r =>
            if negb (response_ok r) then
              time_sleep poll_interval ;;;
              wait_ready_loop fuel' poll_interval start_time
            else
              body <- response_json r ;;
              session_state <- json_get body "state" (JStr "unknown") ;;
              if json_is_str session_state "idle" then ret true
              else if json_in_strs session_state ["error"; "dead"; "killed"]
              then ret false
              else
                time_sleep poll_interval ;;;
                wait_ready_loop fuel' poll_interval start_time
        end
    end
  else ret false.

(** [wait_for_session_ready(self, poll_interval=5)]; [fuel] bounds the number
    of polls. *)
Definition wait_for_session_ready (fuel : nat) (poll_interval : Z) : M bool :=
  c <- get_self ;;
  if not_str (session_url c) then raise (PyException NoActiveSession)
  else
    start_time <- time_time ;;
    wait_ready_loop fuel poll_interval start_time.

Definition list_sessions : M (option JSON) :=
  response <- _send_request env "GET" "/sessions" None default_max_retries ;;
  match response with
  | None => ret None
  | Some r =>
      if negb (response_ok r) || (300 <=? status_code r) then ret None
      else
        body <- response_json r ;;
        ret (Some body)
  end.

Definition submit_statement (code : string) : M (string * JSON) :=
  c <- get_self ;;
  if not_str (session_url c) then raise (PyException NoActiveSession)
  else
    let data := JDict [("code", JStr code)] in
    let statements_url := (format_str (session_url c) ++ "/statements")%string in
    response <- _send_request env "POST" statements_url (Some data)
                  default_max_retries ;;
    match response with
    | None => raise (PyException (SubmitStatementFailed None))
    | Some r =>
        if negb (response_ok r) || (300 <=? status_code r)
        then raise (PyException (SubmitStatementFailed (detail_of r)))
        else
          let statement_location := headers_get "location" (resp_headers r) in
          if not_str statement_location
          then raise (PyException NoStatementLocation)
          else
            body <- response_json r ;;
            ret (format_str statement_location, body)
    end.

(** The polling loop of [get_statement_result]. *)
Fixpoint statement_loop (fuel : nat) (statement_location : string)
    (poll_interval start_time : Z) {struct fuel} : M (option JSON) :=
  t <- time_time ;;
  c <- get_self ;;
  if t - start_time <? timeout c then
    match fuel with
    | O => out_of_fuel
    | S fuel' =>
        response <- _send_request env "GET" statement_location None
                      default_max_retries ;;
        match response with
        | None =>
            time_sleep poll_interval ;;;
            statement_loop fuel' statement_location poll_interval start_time
        | Some r =>
            if negb (response_ok r) then
              time_sleep poll_interval ;;;
              statement_loop fuel' statement_location poll_interval start_time
            else
              statement_data <- response_json r ;;
              statement_state <- json_get statement_data "state" (JStr "unknown") ;;
              if json_is_str statement_state "available" then ret (Some statement_data)
              else if json_in_strs statement_state ["error"; "cancelled"]
              then ret (Some statement_data)
              else
                time_sleep poll_interval ;;;
                statement_loop fuel' statement_location poll_interval start_time
        end
    end
  else ret None.

(** [get_statement_result(self, statement_location, poll_interval=2)]. *)
Definition get_statement_result (fuel : nat) (statement_location : string)
    (poll_interval : Z) : M (option JSON) :=
  start_time <- time_time ;;
  statement_loop fuel statement_location poll_interval start_time.

Definition delete_session : M bool :=
  c <- get_self ;;
  if not_str (session_url c) then ret false
  else
    response <- _send_request env "DELETE" (format_str (session_url c)) None
                  default_max_retries ;;
    match response with
    | None => ret false
    | Some r =>
        if negb (response_ok r) || (300 <=? status_code r) then ret false
        else
          put_session_url None ;;;
          ret true
    end.

End Controllers.

(** ** Observations on the log of effects *)

Definition sleeps (evs : list Event) : list Z :=
  flat_map (fun e => match e with ESleep d => [d] | _ => [] end) evs.

Definition signs (evs : list Event) : list (Z * Request) :=
  flat_map (fun e => match e with ESign t r => [(t, r)] | _ => [] end) evs.

Definition exchanges (evs : list Event) : list (nat * Request) :=
  flat_map (fun e => match e with EExchange i r => [(i, r)] | _ => [] end) evs.

(** The request [_send_request] builds before signing. *)
Definition unsigned_request (c : Client) (method url : string) (data : option JSON)
    : Request :=
  {| req_method := method; req_url := url;
     req_data := dumps_if data; req_headers := headers c |}.

(** The events one run of the dispatcher loop can add, from the value
    [retry_count] has when the loop is entered: attempts that end in a
    backoff sleep, then possibly a last attempt without one. *)
Inductive attempts (env : Env) (method : string) (data : option JSON)
    (req : Request) (max_retries : Z) : Z -> list Event -> Prop :=
| attempts_none : forall rc, attempts env method data req max_retries rc []
| attempts_unsent : forall rc t,
    rc < max_retries ->
    attempts env method data req max_retries rc [ESign t req]
| attempts_last : forall rc t prepped i,
    rc < max_retries ->
    add_auth env t req = Some prepped ->
    attempts env method data req max_retries rc
      [ESign t req; EExchange i (wire_request method prepped data)]
| attempts_retry : forall rc t prepped i rest,
    rc < max_retries ->
    add_auth env t req = Some prepped ->
    attempts env method data req max_retries (rc + 1) rest ->
    attempts env method data req max_retries rc
      (ESign t req :: EExchange i (wire_request method prepped data)
         :: ESleep (2 ^ (rc + 1)) :: rest).

(** The state after one attempt of the dispatcher that reached the service. *)
Definition after_attempt (env : Env) (method url : string) (data : option JSON)
    (st : State) (reply : Reply) : State :=
  let w := world st in
  let req := unsigned_request (self st) method url data in
  match add_auth env (now w) req with
  | Some prepped =>
      with_world (fun w =>
        advance (latency_of reply)
          (count_exchange
             (log (EExchange (sent w) (wire_request method prepped data))
                (log (ESign (now w) req) w)))) st
  | None => st
  end.

Definition after_sleep (d : Z) (st : State) : State :=
  with_world (fun w => advance d (log (ESleep d) w)) st.

(** The reply the next attempt of the dispatcher gets. *)
Definition next_reply (env : Env) (method url : string) (data : option JSON)
    (st : State) : option Reply :=
  let w := world st in
  match add_auth env (now w) (unsigned_request (self st) method url data) with
  | Some prepped => Some (exchange env (sent w) (wire_request method prepped data))
  | None => None
  end.

(** ** What a poll reads *)

(** What the body of a polling loop makes of the dispatcher's result: nothing
    ([None], or a response that is false as a condition), an exception while
    reading the body, or the value of the [state] field. *)
Inductive Reading : Type :=
| NoAnswer
| Unreadable (e : exn)
| StateIs (v : JSON).

Definition read_state (response : option Response) : Reading :=
  match response with
  | None => NoAnswer
  | Some r =>
      if negb (response_ok r) then NoAnswer
      else
        match json_body r with
        | None => Unreadable JSONDecodeError
        | Some (JDict fields) =>
            StateIs (match dict_get "state" fields with
                     | Some v => v
                     | None => JStr "unknown"
                     end)
        | Some _ => Unreadable AttributeError
        end
  end.

(** The states on which [wait_for_session_ready] returns. *)
Definition session_decisive (v : JSON) : bool :=
  json_is_str v "idle" || json_in_strs v ["error"; "dead"; "killed"].

(** The states on which [get_statement_result] returns. *)
Definition statement_decisive (v : JSON) : bool :=
  json_is_str v "available" || json_in_strs v ["error"; "cancelled"].

(** A poll after which the loop sleeps and goes on. *)
Definition quiet (decisive : JSON -> bool) (response : option Response) : bool :=
  match read_state response with
  | NoAnswer => true
  | Unreadable _ => false
  | StateIs v => negb (decisive v)
  end.

(** [quiet_polls env path poll_interval start decisive n st st']: from [st],
    [n] polls of [path] in a row are made within the time allowed, each of
    them quiet and followed by its sleep, and they lead to [st']. *)
Inductive quiet_polls (env : Env) (path : string) (poll_interval start : Z)
    (decisive : JSON -> bool) : nat -> State -> State -> Prop :=
| quiet_polls_none : forall st,
    quiet_polls env path poll_interval start decisive 0 st st
| quiet_polls_more : forall n st response st1 st',
    now (world st) - start < timeout (self st) ->
    _send_request env "GET" path None default_max_retries st = (Return response, st1) ->
    quiet decisive response = true ->
    0 <= poll_interval ->
    quiet_polls env path poll_interval start decisive n
      (after_sleep poll_interval st1) st' ->
    quiet_polls env path poll_interval start decisive (S n) st st'.

(** ** Kinds of services *)

(** The signer never raises. *)
Definition signer_works (env : Env) : Prop :=
  forall t req, add_auth env t req <> None.

(** Every exchange is answered, and with a status of the retryable set. *)
Definition always_retryable (env : Env) : Prop :=
  forall i req, exists lat r,
    exchange env i req = Responds lat r /\ retryable (status_code r) = true.

(** Every exchange fails at the network level. *)
Definition always_unreachable (env : Env) : Prop :=
  forall i req, exists lat, exchange env i req = NetFails lat.

(** The [i]-th exchange is answered with [r], whatever is asked. *)
Definition answers (env : Env) (i : nat) (lat : Z) (r : Response) : Prop :=
  forall req, exchange env i req = Responds lat r.

(** ** Sample services, used to run the client on concrete inputs *)

(** A signer that adds an authorization header, whatever the time. *)
Definition sample_signer (t : Z) (r : Request) : option Request :=
  Some {| req_method := req_method r; req_url := req_url r;
          req_data := req_data r;
          req_headers := req_headers r ++ [("Authorization", "AWS4-ECDSA-P256-SHA256")] |}.

Definition status_response (status : Z) : Response :=
  {| status_code := status; resp_headers := []; text := ""; json_body := None |}.

(** A service that answers the [i]-th exchange with the [i]-th status of a
    list, and with [final] once the list is used up; every exchange takes one
    second. *)
Definition scripted_env (statuses : list Z) (final : Z) : Env :=
  {| add_auth := sample_signer;
     exchange := fun i _ => Responds 1 (status_response (nth i statuses final)) |}.

(** A service no exchange ever reaches. *)
Definition unreachable_env : Env :=
  {| add_auth := sample_signer; exchange := fun _ _ => NetFails 1 |}.

Definition sample_client : Client :=
  init "00fqi5n5j9ctg90l" "us-west-2"
       "arn:aws:iam::808577411626:role/emrServerlessLivyTestRole" default_timeout.

Definition fresh_world : World := {| now := 0; sent := 0; trace := [] |}.

Definition sample_state : State := {| self := sample_client; world := fresh_world |}.

(** A state in which a session is held. *)
Definition session_state (u : string) : State :=
  {| self := set_session_url sample_client (Some u); world := fresh_world |}.

(** A service whose [i]-th answer is a 200 carrying a record in the given
    state, [final] once the list is used up. *)
Definition state_response (state : string) : Response :=
  {| status_code := 200; resp_headers := []; text := "";
     json_body := Some (JDict [("id", JNum 0); ("state", JStr state)]) |}.

Definition polling_env (states : list string) (final : string) : Env :=
  {| add_auth := sample_signer;
     exchange := fun i _ => Responds 1 (state_response (nth i states final)) |}.

(** A service for one statement: the first exchange (the submission) is
    answered 201 with the location of the statement, every later one (a poll)
    with the statement available and its result 2. *)
Definition submission_response : Response :=
  {| status_code := 201;
     resp_headers := [("Content-Type", "application/json");
                      ("Location", "/sessions/1/statements/0")];
     text := "";
     json_body := Some (JDict [("id", JNum 0); ("state", JStr "waiting")]) |}.

Definition available_record : list (string * JSON) :=
  [("id", JNum 0); ("state", JStr "available"); ("result", JNum 2)].

Definition available_response : Response :=
  {| status_code := 200; resp_headers := []; text := "";
     json_body := Some (JDict available_record) |}.

Definition statement_env : Env :=
  {| add_auth := sample_signer;
     exchange := fun i _ =>
       match i with
       | O => Responds 1 submission_response
       | S _ => Responds 1 available_response
       end |}.

(** A state in which a session is held and the time allowed is [tmo]. *)
Definition session_state_with_timeout (u : string) (tmo : Z) : State :=
  {| self := {| endpoint := endpoint sample_client; headers := headers sample_client;
                role_arn := role_arn sample_client; timeout := tmo;
                session_url := Some u |};
     world := fresh_world |}.

(** ** Further observations *)

(** The sum of a list of durations. *)
Definition total (l : list Z) : Z := fold_right Z.add 0 l.

(** A reply after which the dispatcher may try again: a network failure or a
    status of the retryable set. *)
Definition transient (reply : Reply) : bool :=
  match reply with
  | NetFails _ => true
  | Responds _ response => retryable (status_code response)
  end.

(** The first [k] exchanges from the [i]-th on get transient replies. *)
Definition transient_run (env : Env) (i k : nat) : Prop :=
  forall j req, (j < k)%nat -> transient (exchange env (i + j) req) = true.

(** No exchange takes a negative time. *)
Definition latencies_nonnegative (env : Env) : Prop :=
  forall i req, 0 <= latency_of (exchange env i req).

(** The service answers every DELETE with a 2xx response. *)
Definition accepts_delete (env : Env) : Prop :=
  forall i req,
    req_method req = "DELETE" ->
    exists lat r, exchange env i req = Responds lat r /\ is_2xx (status_code r) = true.

(** A signer that always raises (no credentials). *)
Definition unsigned_env : Env :=
  {| add_auth := fun _ _ => None;
     exchange := fun _ _ => Responds 1 (status_response 200) |}.

(** A service whose first exchange fails at the network level, whose second
    is answered 503 and whose later ones are answered 200. *)
Definition flaky_env : Env :=
  {| add_auth := sample_signer;
     exchange := fun i _ =>
       match i with
       | O => NetFails 1
       | S O => Responds 1 (status_response 503)
       | _ => Responds 1 (status_response 200)
       end |}.

(** A service for a whole session, by the order of the exchanges of a run
    that goes well: creation, one poll of the session, the listing, then for
    each of two statements its submission and one poll, then the deletion. *)
Definition created_response : Response :=
  {| status_code := 201;
     resp_headers := [("Location", "/sessions/1")];
     text := "";
     json_body := Some (JDict [("id", JNum 1); ("state", JStr "starting")]) |}.

Definition listing_response : Response :=
  {| status_code := 200; resp_headers := []; text := "";
     json_body := Some (JDict [("total", JNum 1)]) |}.

Definition demo_env : Env :=
  {| add_auth := sample_signer;
     exchange := fun i _ =>
       match i with
       | 0%nat => Responds 1 created_response
       | 1%nat => Responds 1 (state_response "idle")
       | 2%nat => Responds 1 listing_response
       | 3%nat => Responds 1 submission_response
       | 4%nat => Responds 1 available_response
       | 5%nat => Responds 1 submission_response
       | 6%nat => Responds 1 available_response
       | _ => Responds 1 (status_response 204)
       end |}.

(** A service that answers every exchange with a 200 whose body is the given
    JSON value ([None]: a body that is not JSON). *)
Definition body_env (body : option JSON) : Env :=
  {| add_auth := sample_signer;
     exchange := fun _ _ =>
       Responds 1 {| status_code := 200; resp_headers := []; text := "";
                     json_body := body |} |}.

(** ** The example run, [main] *)

(** What [main] prints, by the place of the [print] in the source (the text
    itself and the layout of [pprint] are not modelled). *)
Inductive Printed : Type :=
| PSessionInfo (info : JSON)
| PNotReady
| PSessionList (sessions : option JSON)
| PStatementInfo (info : JSON)
| PStatementResult (result : option JSON)
| PComplexResult (result : option JSON)
| PError (e : exn)
| PCleaned.

Definition Console : Type := list Printed.

(** The monad of [main]: the state of the client and the world, and what
    has been printed so far. *)
Definition P (A : Type) : Type := State * Console -> outcome A * (State * Console).

Definition retP {A : Type} (a : A) : P A := fun sc => (Return a, sc).

Definition bindP {A B : Type} (m : P A) (k : A -> P B) : P B :=
  fun sc =>
    match m sc with
    | (Return a, sc') => k a sc'
    | (Raise e, sc') => (Raise e, sc')
    | (OutOfFuel, sc') => (OutOfFuel, sc')
    end.

(** A method call of the client, inside [main]. *)
Definition call {A : Type} (m : M A) : P A :=
  fun sc => let (o, st') := m (fst sc) in (o, (st', snd sc)).

Definition print (p : Printed) : P unit :=
  fun sc => (Return tt, (fst sc, snd sc ++ [p])).

Definition newline : string := String (ascii_of_nat 10) "".

(** The second statement of [main], a triple-quoted string. *)
Definition complex_code : string :=
  (newline ++ "        data = [2, 2, 4, 8, 8, 8, 8, 16, 32, 32]"
   ++ newline ++ "        rdd = sc.parallelize(data)"
   ++ newline ++ "        ")%string.

(** The body of the [try] of [main], from the creation of the session on; a
    [return] ends it normally. *)
Definition main_try (env : Env) (fuel : nat) : P unit :=
  bindP (call (create_session env)) (fun session_info =>
  bindP (print (PSessionInfo session_info)) (fun _ =>
  bindP (call (wait_for_session_ready env fuel 5)) (fun ready =>
  if negb ready then
    bindP (print PNotReady) (fun _ =>
    bindP (call (delete_session env)) (fun _ =>
    retP tt))
  else
    bindP (call (list_sessions env)) (fun sessions =>
    bindP (print (PSessionList sessions)) (fun _ =>
    bindP (call (submit_statement env "1 + 1")) (fun submitted =>
    let (statement_location, statement_info) := submitted in
    bindP (print (PStatementInfo statement_info)) (fun _ =>
    bindP (call (get_statement_result env fuel statement_location 2)) (fun result =>
    bindP (print (PStatementResult result)) (fun _ =>
    bindP (call (submit_statement env complex_code)) (fun submitted =>
    let (statement_location, _) := submitted in
    bindP (call (get_statement_result env fuel statement_location 2)) (fun result =>
    bindP (print (PComplexResult result)) (fun _ =>
    retP tt)))))))))))).

(** The [finally] of [main]: the session still held, if any, is deleted. *)
Definition main_finally (env : Env) : P unit :=
  fun sc =>
    if negb (not_str (session_url (self (fst sc)))) then
      bindP (call (delete_session env)) (fun _ => print PCleaned) sc
    else (Return tt, sc).

(** [main()], run in a given world: the client is built (its construction,
    that of the signer included, is taken to succeed), the [try] is run, any
    exception is caught and printed, and the [finally] is run.  [fuel] bounds
    the polls of each wait. *)
Definition main (env : Env) (fuel : nat) (w : World)
    : outcome unit * (State * Console) :=
  let client :=
    init "00fqi5n5j9ctg90l" "us-west-2"
         "arn:aws:iam::808577411626:role/emrServerlessLivyTestRole"
         default_timeout in
  match main_try env fuel ({| self := client; world := w |}, []) with
  | (Return _, sc) => main_finally env sc
  | (Raise e, sc) => main_finally env (fst sc, snd sc ++ [PError e])
  | (OutOfFuel, sc) => (OutOfFuel, sc)
  end.

(** A service whose session is created, is then reported dead, and is
    deleted when asked. *)
Definition dead_env : Env :=
  {| add_auth := sample_signer;
     exchange := fun i _ =>
       match i with
       | 0%nat => Responds 1 created_response
       | 1%nat => Responds 1 (state_response "dead")
       | _ => Responds 1 (status_response 204)
       end |}.

(** A service that answers by the kind of request, whenever it is asked: a
    POST (a submission) gets the 201 with the location of the statement, any
    other request (a poll) gets the statement available with result 2. *)
Definition kind_env : Env :=
  {| add_auth := sample_signer;
     exchange := fun _ req =>
       if String.eqb (req_method req) "POST"
       then Responds 1 submission_response
       else Responds 1 available_response |}.

(** The same service, but its answer to a submission has no JSON body. *)
Definition bare_submission_response : Response :=
  {| status_code := 201;
     resp_headers := [("Location", "/sessions/1/statements/0")];
     text := "";
     json_body := None |}.

Definition bare_env : Env :=
  {| add_auth := sample_signer;
     exchange := fun _ req =>
       if String.eqb (req_method req) "POST"
       then Responds 1 bare_submission_response
       else Responds 1 available_response |}.

(** ** The dispatcher: general facts *)

Ltac run_monad :=
  unfold bind, get_self, signer_add_auth, requests_send, time_sleep, time_time,
    put_session_url, ret, raise, out_of_fuel, with_world; cbn [fst snd self world].

(** One quiet poll of a concrete service. *)
Ltac quiet_step :=
  eapply quiet_polls_more;
  [ vm_compute; reflexivity | cbv; reflexivity | vm_compute; reflexivity | lia | ].

Lemma pow2_not_negative (n : Z) : (2 ^ n <? 0) = false.
Proof.
  apply Z.ltb_ge. apply Z.pow_nonneg. lia.
Qed.

Section DispatcherFacts.

Variable env : Env.
Variables (method url : string) (data : option JSON) (max_retries : Z).

(** Leaving the loop: nothing happens and [None] is returned. *)
Lemma send_loop_exit (fuel : nat) (rc : Z) (st : State) :
  max_retries <= rc -> send_loop env fuel method url data max_retries rc st = (Return None, st).
Proof.
  intros H. destruct fuel; simpl;
    (replace (rc <? max_retries) with false by (symmetry; apply Z.ltb_ge; lia));
    reflexivity.
Qed.

(** One turn of the loop on a retryable status: count, sleep, go on. *)
Lemma send_loop_retry_status (fuel : nat) (rc : Z) (st : State) lat r :
  rc < max_retries ->
  supported method = true ->
  next_reply env method url data st = Some (Responds lat r) ->
  retryable (status_code r) = true ->
  send_loop env (S fuel) method url data max_retries rc st
  = send_loop env fuel method url data max_retries (rc + 1) (after_sleep (2 ^ (rc + 1)) (after_attempt env method url data st (Responds lat r))).
Proof.
  intros Hlt Hm Hrep Hretry.
  assert (H2xx : (200 <=? status_code r) && (status_code r <? 300) = false).
  { unfold retryable, retryable_statuses in Hretry. simpl in Hretry.
    repeat (apply orb_prop in Hretry; destruct Hretry as [Hretry | Hretry];
            [apply Z.eqb_eq in Hretry; rewrite Hretry; reflexivity|]).
    discriminate. }
  unfold next_reply, after_attempt, after_sleep, unsigned_request in *.
  simpl. apply Z.ltb_lt in Hlt. rewrite Hlt. run_monad.
  destruct (add_auth env _ _) as [prepped|]; [|discriminate].
  rewrite Hm. simpl. injection Hrep as Hrep. rewrite Hrep. simpl.
  rewrite H2xx, Hretry. rewrite pow2_not_negative. reflexivity.
Qed.

(** One turn of the loop on a response that is not retried. *)
Lemma send_loop_final_status (fuel : nat) (rc : Z) (st : State) lat r :
  rc < max_retries ->
  supported method = true ->
  next_reply env method url data st = Some (Responds lat r) ->
  retryable (status_code r) = false \/ is_2xx (status_code r) = true ->
  send_loop env (S fuel) method url data max_retries rc st = (Return (Some r), after_attempt env method url data st (Responds lat r)).
Proof.
  intros Hlt Hm Hrep Hfinal.
  unfold next_reply, after_attempt, unsigned_request, is_2xx in *.
  simpl. apply Z.ltb_lt in Hlt. rewrite Hlt. run_monad.
  destruct (add_auth env _ _) as [prepped|]; [|discriminate].
  rewrite Hm. simpl. injection Hrep as Hrep. rewrite Hrep. simpl.
  destruct ((200 <=? status_code r) && (status_code r <? 300)); [reflexivity|].
  destruct Hfinal as [Hfinal | Hfinal]; [|discriminate].
  rewrite Hfinal. reflexivity.
Qed.

(** One turn of the loop on a network failure with attempts left. *)
Lemma send_loop_retry_failure (fuel : nat) (rc : Z) (st : State) lat :
  rc + 1 < max_retries ->
  supported method = true ->
  next_reply env method url data st = Some (NetFails lat) ->
  send_loop env (S fuel) method url data max_retries rc st
  = send_loop env fuel method url data max_retries (rc + 1) (after_sleep (2 ^ (rc + 1)) (after_attempt env method url data st (NetFails lat))).
Proof.
  intros Hlt Hm Hrep.
  unfold next_reply, after_attempt, after_sleep, unsigned_request in *.
  simpl. replace (rc <? max_retries) with true by (symmetry; apply Z.ltb_lt; lia).
  run_monad.
  destruct (add_auth env _ _) as [prepped|]; [|discriminate].
  rewrite Hm. simpl. injection Hrep as Hrep. rewrite Hrep. simpl.
  apply Z.ltb_lt in Hlt. rewrite Hlt. rewrite pow2_not_negative. reflexivity.
Qed.

(** The last turn of the loop on a network failure: the exception goes up. *)
Lemma send_loop_last_failure (fuel : nat) (rc : Z) (st : State) lat :
  rc < max_retries -> max_retries <= rc + 1 ->
  supported method = true ->
  next_reply env method url data st = Some (NetFails lat) ->
  send_loop env (S fuel) method url data max_retries rc st = (Raise RequestException, after_attempt env method url data st (NetFails lat)).
Proof.
  intros Hlt Hge Hm Hrep.
  unfold next_reply, after_attempt, unsigned_request in *.
  simpl. apply Z.ltb_lt in Hlt. rewrite Hlt. run_monad.
  destruct (add_auth env _ _) as [prepped|]; [|discriminate].
  rewrite Hm. simpl. injection Hrep as Hrep. rewrite Hrep. simpl.
  replace (rc + 1 <? max_retries) with false by (symmetry; apply Z.ltb_ge; lia).
  reflexivity.
Qed.

(** What a run of the loop leaves behind: the object is untouched, the
    exchange counter moves by the number of exchanges logged, and the new
    events are a series of attempts. *)
Lemma send_loop_shape (fuel : nat) :
  forall (rc : Z) (st : State),
    let st' := snd (send_loop env fuel method url data max_retries rc st) in
    exists evs,
      trace (world st') = trace (world st) ++ evs
      /\ attempts env method data (unsigned_request (self st) method url data)
           max_retries rc evs
      /\ self st' = self st
      /\ sent (world st') = (sent (world st) + List.length (exchanges evs))%nat.
Proof.
  induction fuel as [|fuel IH]; intros rc st; simpl.
  - destruct (rc <? max_retries); exists []; simpl;
      rewrite app_nil_r, Nat.add_0_r; repeat split; constructor.
  - destruct (rc <? max_retries) eqn:Hlt.
    2:{ exists []. simpl. rewrite app_nil_r, Nat.add_0_r. repeat split; constructor. }
    apply Z.ltb_lt in Hlt. run_monad.
    fold (unsigned_request (self st) method url data).
    set (req := unsigned_request (self st) method url data) in *.
    destruct (add_auth env (now (world st)) req) as [prepped|] eqn:Hsign.
    2:{ exists [ESign (now (world st)) req]. simpl. repeat split; [|lia].
        now constructor. }
    destruct (supported method).
    2:{ exists [ESign (now (world st)) req]. simpl. repeat split; [|lia].
        now constructor. }
    simpl.
    destruct (exchange env (sent (world st)) _) as [lat | lat r] eqn:Hreply;
      cbn [latency_of].
    + destruct (rc + 1 <? max_retries).
      * rewrite pow2_not_negative.
        match goal with |- context [send_loop env fuel _ _ _ _ _ ?s] =>
          destruct (IH (rc + 1) s) as (evs & Htr & Hatt & Hself & Hsent) end.
        exists (ESign (now (world st)) req
                  :: EExchange (sent (world st)) (wire_request method prepped data)
                  :: ESleep (2 ^ (rc + 1)) :: evs).
        rewrite Htr, Hself, Hsent. simpl. rewrite <- !app_assoc. simpl.
        repeat split; [|lia]. eapply attempts_retry; eauto.
      * exists [ESign (now (world st)) req;
                EExchange (sent (world st)) (wire_request method prepped data)].
        simpl. rewrite <- !app_assoc. simpl.
        repeat split; [|lia]. eapply attempts_last; eauto.
    + destruct ((200 <=? status_code r) && (status_code r <? 300)).
      { exists [ESign (now (world st)) req;
                EExchange (sent (world st)) (wire_request method prepped data)].
        simpl. rewrite <- !app_assoc. simpl.
        repeat split; [|lia]. eapply attempts_last; eauto. }
      destruct (retryable (status_code r)).
      * rewrite pow2_not_negative.
        match goal with |- context [send_loop env fuel _ _ _ _ _ ?s] =>
          destruct (IH (rc + 1) s) as (evs & Htr & Hatt & Hself & Hsent) end.
        exists (ESign (now (world st)) req
                  :: EExchange (sent (world st)) (wire_request method prepped data)
                  :: ESleep (2 ^ (rc + 1)) :: evs).
        rewrite Htr, Hself, Hsent. simpl. rewrite <- !app_assoc. simpl.
        repeat split; [|lia]. eapply attempts_retry; eauto.
      * exists [ESign (now (world st)) req;
                EExchange (sent (world st)) (wire_request method prepped data)].
        simpl. rewrite <- !app_assoc. simpl.
        repeat split; [|lia]. eapply attempts_last; eauto.
Qed.

(** The loop never runs out of fuel when started with [max_retries] turns. *)
Lemma send_loop_total (fuel : nat) :
  forall (rc : Z) (st : State),
    (Z.to_nat (max_retries - rc) <= fuel)%nat ->
    fst (send_loop env fuel method url data max_retries rc st) <> OutOfFuel.
Proof.
  induction fuel as [|fuel IH]; intros rc st Hfuel; simpl.
  - replace (rc <? max_retries) with false by (symmetry; apply Z.ltb_ge; lia).
    discriminate.
  - destruct (rc <? max_retries) eqn:Hlt; [|discriminate].
    apply Z.ltb_lt in Hlt. run_monad.
    destruct (add_auth env (now (world st)) _) as [prepped|]; [|discriminate].
    destruct (supported method); [|discriminate]. simpl.
    destruct (exchange env (sent (world st)) _) as [lat | lat r]; cbn [latency_of].
    + destruct (rc + 1 <? max_retries); [|discriminate].
      rewrite pow2_not_negative. apply IH. lia.
    + destruct ((200 <=? status_code r) && (status_code r <? 300)); [discriminate|].
      destruct (retryable (status_code r)); [|discriminate].
      rewrite pow2_not_negative. apply IH. lia.
Qed.

End DispatcherFacts.

(** ** What a series of attempts looks like *)

Section AttemptsFacts.

Variable env : Env.
Variables (method : string) (data : option JSON) (req : Request) (max_retries : Z).

Lemma attempts_head (rc : Z) (e : Event) (rest : list Event) :
  attempts env method data req max_retries rc (e :: rest) -> exists t, e = ESign t req.
Proof.
  intros H. inversion H; subst; eauto.
Qed.

(** Every turn signs at most once, exchanges only what it signed, and sleeps
    only after an exchange; there are at most [max_retries - rc] turns. *)
Lemma attempts_counts (rc : Z) (evs : list Event) :
  attempts env method data req max_retries rc evs ->
  (List.length (signs evs) <= Z.to_nat (max_retries - rc))%nat
  /\ (List.length (exchanges evs) <= List.length (signs evs))%nat
  /\ (List.length (sleeps evs) <= List.length (exchanges evs))%nat.
Proof.
  induction 1 as [rc | rc t Hlt | rc t prepped i Hlt Hsign
                  | rc t prepped i rest Hlt Hsign Hrest IH]; simpl; lia.
Qed.

(** Every exchange sends the request signed just before it. *)
Lemma attempts_signed (rc : Z) (evs : list Event) :
  attempts env method data req max_retries rc evs ->
  forall l1 i w l2,
    evs = l1 ++ EExchange i w :: l2 ->
    exists l0 t prepped,
      l1 = l0 ++ [ESign t req]
      /\ add_auth env t req = Some prepped
      /\ w = wire_request method prepped data.
Proof.
  induction 1 as [rc | rc t Hlt | rc t prepped i Hlt Hsign
                  | rc t prepped i rest Hlt Hsign Hrest IH];
    intros l1 j w l2 Heq.
  - destruct l1; discriminate.
  - destruct l1 as [|e1 [|e2 l1]]; discriminate.
  - destruct l1 as [|e1 [|e2 [|e3 l1]]]; try discriminate.
    simpl in Heq. inversion Heq; subst.
    exists [], t, prepped. auto.
  - destruct l1 as [|e1 [|e2 [|e3 l1]]]; try discriminate.
    + simpl in Heq. inversion Heq; subst.
      exists [], t, prepped. auto.
    + simpl in Heq. inversion Heq as [[He1 He2 He3 Hrest']]. subst e1 e2 e3.
      destruct (IH _ _ _ _ Hrest') as (l0 & t' & p' & Hl1 & Hs & Hw).
      exists (ESign t req :: EExchange i (wire_request method prepped data)
                :: ESleep (2 ^ (rc + 1)) :: l0), t', p'.
      subst l1. auto.
Qed.

(** The [k]-th sleep of a run entered with [retry_count = rc] lasts
    [2 ^ (rc + k)] seconds. *)
Lemma attempts_sleeps (rc : Z) (evs : list Event) :
  attempts env method data req max_retries rc evs ->
  sleeps evs
  = map (fun k => 2 ^ (rc + Z.of_nat k)) (seq 1 (List.length (sleeps evs))).
Proof.
  induction 1 as [rc | rc t Hlt | rc t prepped i Hlt Hsign
                  | rc t prepped i rest Hlt Hsign Hrest IH]; simpl; try reflexivity.
  f_equal. rewrite IH at 1.
  rewrite <- (seq_shift (List.length (sleeps rest)) 1), map_map.
  apply map_ext. intros k. f_equal. lia.
Qed.

(** The attempt that follows [n] earlier ones comes right after a sleep of
    [2 ^ (rc + n)] seconds. *)
Lemma attempts_sleep_before (rc : Z) (evs : list Event) :
  attempts env method data req max_retries rc evs ->
  forall l1 t l2 n,
    evs = l1 ++ ESign t req :: l2 ->
    List.length (signs l1) = n ->
    (1 <= n)%nat ->
    exists l0, l1 = l0 ++ [ESleep (2 ^ (rc + Z.of_nat n))].
Proof.
  induction 1 as [rc | rc t Hlt | rc t prepped i Hlt Hsign
                  | rc t prepped i rest Hlt Hsign Hrest IH];
    intros l1 t' l2 n Heq Hn Hpos.
  - destruct l1; discriminate.
  - destruct l1 as [|e1 [|e2 l1]]; try discriminate.
    simpl in Hn. lia.
  - destruct l1 as [|e1 [|e2 [|e3 l1]]]; try discriminate.
    simpl in Hn. lia.
  - destruct l1 as [|e1 [|e2 [|e3 l1]]]; try discriminate.
    { simpl in Hn. lia. }
    simpl in Heq. inversion Heq as [[He1 He2 He3 Hrest']]. subst e1 e2 e3.
    simpl in Hn.
    destruct l1 as [|e l1].
    + simpl in Hn. subst n.
      exists [ESign t req; EExchange i (wire_request method prepped data)].
      reflexivity.
    + assert (He : exists te, e = ESign te req).
      { rewrite Hrest' in Hrest. simpl in Hrest. eapply attempts_head; eauto. }
      destruct He as (te & He). subst e.
      destruct n as [|n]; [discriminate|]. injection Hn as Hn.
      destruct (IH _ _ _ n Hrest' Hn) as (l0 & Hl0).
      { rewrite <- Hn. simpl. lia. }
      exists (ESign t req :: EExchange i (wire_request method prepped data)
                :: ESleep (2 ^ (rc + 1)) :: l0).
      replace (rc + Z.of_nat (S n)) with (rc + 1 + Z.of_nat n) by lia.
      rewrite Hl0. reflexivity.
Qed.

End AttemptsFacts.

Lemma sleeps_app (l1 l2 : list Event) : sleeps (l1 ++ l2) = sleeps l1 ++ sleeps l2.
Proof.
  unfold sleeps. apply flat_map_app.
Qed.

Lemma exchanges_app (l1 l2 : list Event) :
  exchanges (l1 ++ l2) = exchanges l1 ++ exchanges l2.
Proof.
  unfold exchanges. apply flat_map_app.
Qed.

Lemma send_request_unfold (env : Env) (method path : string) (data : option JSON)
    (max_retries : Z) (st : State) :
  _send_request env method path data max_retries st
  = send_loop env (Z.to_nat max_retries) method (endpoint (self st) ++ path)%string
      data max_retries 0 st.
Proof.
  reflexivity.
Qed.

(** The dispatcher always comes back: with a response, with [None] or with an
    exception. *)
Lemma send_request_total (env : Env) (method path : string) (data : option JSON)
    (max_retries : Z) (st : State) :
  fst (_send_request env method path data max_retries st) <> OutOfFuel.
Proof.
  rewrite send_request_unfold. apply send_loop_total. lia.
Qed.

(** The dispatcher never touches the fields of the object. *)
Lemma send_request_self (env : Env) (method path : string) (data : option JSON)
    (max_retries : Z) (st : State) :
  self (snd (_send_request env method path data max_retries st)) = self st.
Proof.
  rewrite send_request_unfold.
  destruct (send_loop_shape env method (endpoint (self st) ++ path)%string data
              max_retries (Z.to_nat max_retries) 0 st) as (evs & _ & _ & Hself & _).
  exact Hself.
Qed.

(** ** The dispatcher on particular services *)

Section DispatcherRuns.

Variable env : Env.
Variables (method url : string) (data : option JSON) (max_retries : Z).

Hypothesis method_supported : supported method = true.
Hypothesis signer_ok : signer_works env.

Lemma next_reply_exchange (st : State) :
  exists prepped,
    add_auth env (now (world st)) (unsigned_request (self st) method url data)
    = Some prepped
    /\ next_reply env method url data st
       = Some (exchange env (sent (world st)) (wire_request method prepped data)).
Proof.
  unfold next_reply.
  destruct (add_auth env (now (world st)) _) as [prepped|] eqn:Hsign.
  - exists prepped. auto.
  - exfalso. eapply signer_ok; eauto.
Qed.

Lemma after_attempt_world (st : State) (reply : Reply) :
  self (after_attempt env method url data st reply) = self st
  /\ sent (world (after_attempt env method url data st reply)) = S (sent (world st))
  /\ exists t w,
       trace (world (after_attempt env method url data st reply))
       = trace (world st)
         ++ [ESign t (unsigned_request (self st) method url data);
             EExchange (sent (world st)) w].
Proof.
  unfold after_attempt.
  destruct (add_auth env (now (world st)) _) as [prepped|] eqn:Hsign.
  - simpl. rewrite <- app_assoc. simpl. eauto.
  - exfalso. eapply signer_ok; eauto.
Qed.

Lemma after_sleep_world (d : Z) (st : State) :
  self (after_sleep d st) = self st
  /\ sent (world (after_sleep d st)) = sent (world st)
  /\ trace (world (after_sleep d st)) = trace (world st) ++ [ESleep d].
Proof.
  unfold after_sleep. simpl. auto.
Qed.

(** A service that only ever answers with retryable statuses: every turn
    sleeps, and when the turns are used up the loop is left with [None]. *)
Lemma send_loop_always_retryable (fuel : nat) :
  always_retryable env ->
  forall (rc : Z) (st : State),
    fuel = Z.to_nat (max_retries - rc) ->
    fst (send_loop env fuel method url data max_retries rc st) = Return None
    /\ sent (world (snd (send_loop env fuel method url data max_retries rc st))) = (sent (world st) + fuel)%nat
    /\ sleeps (trace (world (snd (send_loop env fuel method url data max_retries rc st))))
       = sleeps (trace (world st))
         ++ map (fun k => 2 ^ (rc + Z.of_nat k)) (seq 1 fuel).
Proof.
  intros Hall. induction fuel as [|fuel IH]; intros rc st Hfuel.
  - rewrite send_loop_exit by lia. simpl.
    rewrite app_nil_r. auto.
  - destruct (next_reply_exchange st) as (prepped & Hsign & Hnext).
    destruct (Hall (sent (world st)) (wire_request method prepped data))
      as (lat & r & Hreply & Hretry).
    rewrite Hreply in Hnext.
    rewrite (send_loop_retry_status env method url data max_retries fuel rc st lat r)
      by (auto; lia).
    set (st1 := after_sleep (2 ^ (rc + 1))
                  (after_attempt env method url data st (Responds lat r))).
    destruct (IH (rc + 1) st1) as (Hres & Hsent & Hsleeps); [lia|].
    destruct (after_sleep_world (2 ^ (rc + 1))
                (after_attempt env method url data st (Responds lat r)))
      as (_ & Hs1 & Ht1).
    destruct (after_attempt_world st (Responds lat r)) as (_ & Hs2 & t & w & Ht2).
    fold st1 in Hs1, Ht1.
    split; [exact Hres|]. split.
    + rewrite Hsent, Hs1, Hs2. lia.
    + rewrite Hsleeps, Ht1, Ht2. rewrite !sleeps_app. simpl.
      rewrite app_nil_r, <- app_assoc. simpl. f_equal. f_equal.
      rewrite <- (seq_shift fuel 1), map_map.
      apply map_ext. intros k. f_equal. lia.
Qed.

(** A service no exchange reaches: every turn but the last sleeps, the last
    one lets the exception through. *)
Lemma send_loop_always_unreachable (fuel : nat) :
  always_unreachable env ->
  forall (rc : Z) (st : State),
    S fuel = Z.to_nat (max_retries - rc) ->
    fst (send_loop env (S fuel) method url data max_retries rc st) = Raise RequestException
    /\ sent (world (snd (send_loop env (S fuel) method url data max_retries rc st))) = (sent (world st) + S fuel)%nat
    /\ sleeps (trace (world (snd (send_loop env (S fuel) method url data max_retries rc st))))
       = sleeps (trace (world st))
         ++ map (fun k => 2 ^ (rc + Z.of_nat k)) (seq 1 fuel)
    /\ exists l i w,
         trace (world (snd (send_loop env (S fuel) method url data max_retries rc st))) = l ++ [EExchange i w].
Proof.
  intros Hall. induction fuel as [|fuel IH]; intros rc st Hfuel;
    destruct (next_reply_exchange st) as (prepped & Hsign & Hnext);
    destruct (Hall (sent (world st)) (wire_request method prepped data))
      as (lat & Hreply);
    rewrite Hreply in Hnext;
    destruct (after_attempt_world st (NetFails lat)) as (_ & Hs2 & t & w & Ht2).
  - rewrite (send_loop_last_failure env method url data max_retries 0 rc st lat)
      by (auto; lia).
    simpl. rewrite Hs2, Ht2, sleeps_app. simpl.
    repeat split; [lia|].
    exists (trace (world st) ++ [ESign t (unsigned_request (self st) method url data)]),
      (sent (world st)), w.
    rewrite <- app_assoc. reflexivity.
  - rewrite (send_loop_retry_failure env method url data max_retries (S fuel) rc st lat)
      by (auto; lia).
    set (st1 := after_sleep (2 ^ (rc + 1))
                  (after_attempt env method url data st (NetFails lat))).
    destruct (IH (rc + 1) st1) as (Hres & Hsent & Hsleeps & Hlast); [lia|].
    destruct (after_sleep_world (2 ^ (rc + 1))
                (after_attempt env method url data st (NetFails lat)))
      as (_ & Hs1 & Ht1).
    fold st1 in Hs1, Ht1.
    split; [exact Hres|]. split; [|split; [|exact Hlast]].
    + rewrite Hsent, Hs1, Hs2. lia.
    + rewrite Hsleeps, Ht1, Ht2. rewrite !sleeps_app. simpl.
      rewrite app_nil_r, <- app_assoc. simpl. f_equal. f_equal.
      rewrite <- (seq_shift fuel 1), map_map.
      apply map_ext. intros k. f_equal. lia.
Qed.

End DispatcherRuns.

(** ** The dispatcher: retry budget, signatures and backoff *)

(** C1, as stated, fails: against a service that answers 503 to everything,
    with [max_retries = 3], the dispatcher does not hand back any response. *)
Lemma send_exhausted_returns_no_response :
  ~ exists r,
      fst (_send_request (scripted_env [] 503) "GET" "/sessions" None 3 sample_state)
      = Return (Some r).
Proof.
  intros [r H]. vm_compute in H. discriminate H.
Qed.

(** C1 (amended): for every [max_retries] and every service that only answers
    with statuses of the retryable set 429, 500, 502, 503, 504, once the retry
    budget is used up (after [max_retries] exchanges) the dispatcher returns
    normally, without an exception, and what it returns is the absent value
    [None], not the last response. *)
Theorem send_returns_none_when_budget_exhausted
    (env : Env) (method path : string) (data : option JSON) (max_retries : Z)
    (st : State) :
  supported method = true ->
  signer_works env ->
  always_retryable env ->
  let res := _send_request env method path data max_retries st in
  fst res = Return None
  /\ sent (world (snd res)) = (sent (world st) + Z.to_nat max_retries)%nat.
Proof.
  intros Hm Hsign Hall res. subst res. rewrite send_request_unfold.
  destruct (send_loop_always_retryable env method
              (endpoint (self st) ++ path)%string data max_retries Hm Hsign
              (Z.to_nat max_retries) Hall 0 st) as (Hres & Hsent & _).
  { f_equal. lia. }
  split; assumption.
Qed.

Lemma scripted_env_signer_works (statuses : list Z) (final : Z) :
  signer_works (scripted_env statuses final).
Proof.
  intros t req. discriminate.
Qed.

Lemma unreachable_env_signer_works : signer_works unreachable_env.
Proof.
  intros t req. discriminate.
Qed.

Lemma scripted_env_503_always_retryable : always_retryable (scripted_env [] 503).
Proof.
  intros i req. exists 1, (status_response 503). simpl.
  destruct i; auto.
Qed.

Lemma send_returns_none_when_budget_exhausted_witness :
  let res := _send_request (scripted_env [] 503) "GET" "/sessions" None 3 sample_state in
  fst res = Return None /\ sent (world (snd res)) = 3%nat.
Proof.
  exact (send_returns_none_when_budget_exhausted (scripted_env [] 503)
           "GET" "/sessions" None 3 sample_state eq_refl
           (scripted_env_signer_works [] 503) scripted_env_503_always_retryable).
Defined.

(** C2, as stated, fails: with [max_retries = 3] and a service that fails every
    attempt with 503, the dispatcher uses its whole budget and the exchange is
    performed three times; there is no attempt number [max_retries + 1]. *)
Lemma send_makes_no_extra_attempt :
  let st' := snd (_send_request (scripted_env [] 503) "GET" "/sessions" None 3
                    sample_state) in
  List.length (exchanges (trace (world st'))) = 3%nat
  /\ List.length (exchanges (trace (world st'))) <> Z.to_nat (3 + 1).
Proof.
  vm_compute. split; [reflexivity | discriminate].
Qed.

(** C2 (amended): for every call of the dispatcher with retry parameter
    [max_retries], the request is signed and the exchange performed at most
    [max_retries] times (attempts 1 to [max_retries]; none when
    [max_retries <= 0]), and every exchange sends the request as signed in
    that very attempt: a signature is computed afresh right before it. *)
Theorem send_signs_each_of_at_most_max_retries_attempts
    (env : Env) (method path : string) (data : option JSON) (max_retries : Z)
    (st : State) :
  let st' := snd (_send_request env method path data max_retries st) in
  let req := unsigned_request (self st) method (endpoint (self st) ++ path)%string data in
  exists evs,
    trace (world st') = trace (world st) ++ evs
    /\ (List.length (signs evs) <= Z.to_nat max_retries)%nat
    /\ (List.length (exchanges evs) <= List.length (signs evs))%nat
    /\ sent (world st') = (sent (world st) + List.length (exchanges evs))%nat
    /\ forall l1 i w l2,
         evs = l1 ++ EExchange i w :: l2 ->
         exists l0 t prepped,
           l1 = l0 ++ [ESign t req]
           /\ add_auth env t req = Some prepped
           /\ w = wire_request method prepped data.
Proof.
  intros st' req. subst st'. rewrite send_request_unfold.
  destruct (send_loop_shape env method (endpoint (self st) ++ path)%string data
              max_retries (Z.to_nat max_retries) 0 st)
    as (evs & Htr & Hshape & _ & Hsent).
  fold req in Hshape.
  destruct (attempts_counts _ _ _ _ _ _ _ Hshape) as (Hsigns & Hexch & _).
  exists evs. repeat split; try assumption.
  - rewrite Z.sub_0_r in Hsigns. exact Hsigns.
  - intros l1 i w l2 Heq. eapply attempts_signed; eauto.
Qed.

(** C6: in every run of the dispatcher the [n]-th backoff sleep lasts
    [base_backoff_seconds ^ n] seconds, whatever the service and the clock do
    (no jitter); the sleep before attempt [n + 1] is that [n]-th sleep, and
    there is such an attempt only when [n + 1 <= max_retries]; the durations
    are strictly increasing. *)
Theorem backoff_is_exponential_and_increasing
    (env : Env) (method path : string) (data : option JSON) (max_retries : Z)
    (st : State) :
  let st' := snd (_send_request env method path data max_retries st) in
  let req := unsigned_request (self st) method (endpoint (self st) ++ path)%string data in
  exists evs,
    trace (world st') = trace (world st) ++ evs
    /\ sleeps evs
       = map (fun n => base_backoff_seconds ^ Z.of_nat n)
           (seq 1 (List.length (sleeps evs)))
    /\ (List.length (sleeps evs) <= Z.to_nat max_retries)%nat
    /\ (forall l1 t l2 n,
          evs = l1 ++ ESign t req :: l2 ->
          List.length (signs l1) = n ->
          (1 <= n)%nat ->
          Z.of_nat n + 1 <= max_retries
          /\ exists l0, l1 = l0 ++ [ESleep (base_backoff_seconds ^ Z.of_nat n)])
    /\ (forall i j,
          (i < j < List.length (sleeps evs))%nat ->
          nth i (sleeps evs) 0 < nth j (sleeps evs) 0).
Proof.
  intros st' req. subst st'. rewrite send_request_unfold.
  destruct (send_loop_shape env method (endpoint (self st) ++ path)%string data
              max_retries (Z.to_nat max_retries) 0 st)
    as (evs & Htr & Hshape & _ & _).
  fold req in Hshape.
  destruct (attempts_counts _ _ _ _ _ _ _ Hshape) as (Hsigns & Hexch & Hsl).
  pose proof (attempts_sleeps _ _ _ _ _ _ _ Hshape) as Hsleeps.
  rewrite Z.sub_0_r in Hsigns.
  exists evs. split; [exact Htr|]. split; [exact Hsleeps|]. split; [lia|]. split.
  - intros l1 t l2 n Heq Hn Hpos. split.
    + assert (Hlen : List.length (signs evs) = S (n + List.length (signs l2))).
      { rewrite Heq. unfold signs. rewrite flat_map_app, length_app. simpl.
        fold (signs l1). fold (signs l2). lia. }
      lia.
    + destruct (attempts_sleep_before _ _ _ _ _ _ _ Hshape _ _ _ _ Heq Hn Hpos)
        as (l0 & Hl0).
      exists l0. exact Hl0.
  - intros i j Hij. rewrite Hsleeps.
    set (f := fun n : nat => 0 + Z.of_nat n).
    assert (Hnth : forall k, (k < List.length (sleeps evs))%nat ->
              nth k (map (fun n => 2 ^ (0 + Z.of_nat n))
                       (seq 1 (List.length (sleeps evs)))) 0
              = 2 ^ (Z.of_nat k + 1)).
    { intros k Hk.
      rewrite (nth_indep _ 0 (2 ^ (0 + Z.of_nat 0)))
        by (rewrite length_map, length_seq; exact Hk).
      rewrite (map_nth (fun n => 2 ^ (0 + Z.of_nat n))).
      rewrite seq_nth by exact Hk. f_equal. lia. }
    rewrite !Hnth by lia.
    apply Z.pow_lt_mono_r; lia.
Qed.

Lemma backoff_is_exponential_and_increasing_witness :
  let st' := snd (_send_request (scripted_env [] 503) "GET" "/sessions" None 3
                    sample_state) in
  exists evs,
    trace (world st') = trace (world sample_state) ++ evs
    /\ sleeps evs
       = map (fun n => base_backoff_seconds ^ Z.of_nat n)
           (seq 1 (List.length (sleeps evs)))
    /\ (List.length (sleeps evs) <= 3)%nat.
Proof.
  destruct (backoff_is_exponential_and_increasing (scripted_env [] 503)
              "GET" "/sessions" None 3 sample_state) as (evs & H1 & H2 & H3 & _).
  exists evs. auto.
Defined.

(** C3, as stated, fails at [max_retries = 2]: after the two 503 answers the
    budget is used up, the third exchange is never made and [None] comes back
    instead of the 200 response. *)
Lemma send_503_503_200_with_two_retries :
  fst (_send_request (scripted_env [503; 503] 200) "GET" "/sessions" None 2
         sample_state)
  <> Return (Some (status_response 200)).
Proof.
  vm_compute. discriminate.
Qed.

(** C3 (amended): for every [max_retries >= 3], if the successive exchanges
    are answered with the statuses 503, 503 and 200, the dispatcher returns
    the 200 response and sleeps exactly twice (2 and then 4 seconds). *)
Theorem send_503_503_200_returns_200
    (env : Env) (method path : string) (data : option JSON) (max_retries : Z)
    (st : State) (lat1 lat2 lat3 : Z) (r1 r2 r3 : Response) :
  supported method = true ->
  signer_works env ->
  3 <= max_retries ->
  answers env (sent (world st)) lat1 r1 -> status_code r1 = 503 ->
  answers env (S (sent (world st))) lat2 r2 -> status_code r2 = 503 ->
  answers env (S (S (sent (world st)))) lat3 r3 -> status_code r3 = 200 ->
  let res := _send_request env method path data max_retries st in
  fst res = Return (Some r3)
  /\ exists evs,
       trace (world (snd res)) = trace (world st) ++ evs
       /\ sleeps evs = [2; 4]
       /\ List.length (exchanges evs) = 3%nat.
Proof.
  intros Hm Hsign Hmax H1 Hs1 H2 Hs2 H3 Hs3 res. subst res.
  rewrite send_request_unfold.
  set (url := (endpoint (self st) ++ path)%string).
  assert (Hfuel : exists k, Z.to_nat max_retries = S (S (S k))).
  { exists (Z.to_nat max_retries - 3)%nat. lia. }
  destruct Hfuel as (k & Hfuel). rewrite Hfuel.
  (* first attempt: 503 *)
  destruct (next_reply_exchange env method url data Hsign st) as (p1 & _ & Hn1).
  rewrite H1 in Hn1.
  rewrite (send_loop_retry_status env method url data max_retries _ 0 st lat1 r1)
    by (auto; try lia; rewrite Hs1; reflexivity).
  set (st1 := after_sleep (2 ^ (0 + 1))
                (after_attempt env method url data st (Responds lat1 r1))).
  destruct (after_attempt_world env method url data Hsign st (Responds lat1 r1))
    as (Hself1 & Hsent1 & t1 & w1 & Htr1).
  destruct (after_sleep_world (2 ^ (0 + 1))
              (after_attempt env method url data st (Responds lat1 r1)))
    as (Hself1' & Hsent1' & Htr1').
  fold st1 in Hself1', Hsent1', Htr1'.
  rewrite Hsent1 in Hsent1'. rewrite Htr1 in Htr1'.
  (* second attempt: 503 *)
  destruct (next_reply_exchange env method url data Hsign st1) as (p2 & _ & Hn2).
  rewrite Hsent1', H2 in Hn2.
  rewrite (send_loop_retry_status env method url data max_retries _ (0 + 1) st1 lat2 r2)
    by (auto; try lia; rewrite Hs2; reflexivity).
  set (st2 := after_sleep (2 ^ (0 + 1 + 1))
                (after_attempt env method url data st1 (Responds lat2 r2))).
  destruct (after_attempt_world env method url data Hsign st1 (Responds lat2 r2))
    as (Hself2 & Hsent2 & t2 & w2 & Htr2).
  destruct (after_sleep_world (2 ^ (0 + 1 + 1))
              (after_attempt env method url data st1 (Responds lat2 r2)))
    as (Hself2' & Hsent2' & Htr2').
  fold st2 in Hself2', Hsent2', Htr2'.
  rewrite Hsent2, Hsent1' in Hsent2'. rewrite Htr2, Htr1' in Htr2'.
  (* third attempt: 200 *)
  destruct (next_reply_exchange env method url data Hsign st2) as (p3 & _ & Hn3).
  rewrite Hsent2', H3 in Hn3.
  rewrite (send_loop_final_status env method url data max_retries _ (0 + 1 + 1) st2 lat3 r3)
    by (auto; try lia; right; rewrite Hs3; reflexivity).
  destruct (after_attempt_world env method url data Hsign st2 (Responds lat3 r3))
    as (_ & _ & t3 & w3 & Htr3).
  simpl. split; [reflexivity|].
  rewrite Htr3, Htr2'. rewrite <- !app_assoc. simpl.
  eexists. split; [reflexivity|]. split; reflexivity.
Qed.

Lemma scripted_env_answers (statuses : list Z) (final : Z) (i : nat) :
  answers (scripted_env statuses final) i 1 (status_response (nth i statuses final)).
Proof.
  intros req. reflexivity.
Qed.

Lemma send_503_503_200_returns_200_witness :
  let res := _send_request (scripted_env [503; 503] 200) "GET" "/sessions" None 3
               sample_state in
  fst res = Return (Some (status_response 200))
  /\ exists evs,
       trace (world (snd res)) = trace (world sample_state) ++ evs
       /\ sleeps evs = [2; 4]
       /\ List.length (exchanges evs) = 3%nat.
Proof.
  apply (send_503_503_200_returns_200 (scripted_env [503; 503] 200)
           "GET" "/sessions" None 3 sample_state 1 1 1
           (status_response 503) (status_response 503) (status_response 200)).
  - reflexivity.
  - apply scripted_env_signer_works.
  - lia.
  - exact (scripted_env_answers [503; 503] 200 0).
  - reflexivity.
  - exact (scripted_env_answers [503; 503] 200 1).
  - reflexivity.
  - exact (scripted_env_answers [503; 503] 200 2).
  - reflexivity.
Defined.

(** C5, as stated, fails at [max_retries = 0]: the budget is empty from the
    start, no exchange is attempted and the dispatcher returns [None] instead
    of failing with the transport error. *)
Lemma send_unreachable_without_budget :
  fst (_send_request unreachable_env "GET" "/sessions" None 0 sample_state)
  <> Raise RequestException.
Proof.
  vm_compute. discriminate.
Qed.

(** C5 (amended): for every [max_retries >= 1] and every service whose
    exchanges all fail at the network level, the dispatcher sleeps the backoff
    and retries while attempts remain ([max_retries] exchanges and
    [max_retries - 1] sleeps of 2, 4, ... seconds), then lets the transport
    exception through; the last thing it does is the failed exchange, not a
    sleep. *)
Theorem send_raises_after_network_failures
    (env : Env) (method path : string) (data : option JSON) (max_retries : Z)
    (st : State) :
  supported method = true ->
  signer_works env ->
  always_unreachable env ->
  1 <= max_retries ->
  let res := _send_request env method path data max_retries st in
  fst res = Raise RequestException
  /\ sent (world (snd res)) = (sent (world st) + Z.to_nat max_retries)%nat
  /\ sleeps (trace (world (snd res)))
     = sleeps (trace (world st))
       ++ map (fun k => base_backoff_seconds ^ Z.of_nat k)
            (seq 1 (Z.to_nat max_retries - 1))
  /\ exists l i w, trace (world (snd res)) = l ++ [EExchange i w].
Proof.
  intros Hm Hsign Hall Hmax res. subst res. rewrite send_request_unfold.
  assert (Hfuel : S (Z.to_nat max_retries - 1) = Z.to_nat max_retries) by lia.
  pose proof (send_loop_always_unreachable env method
                (endpoint (self st) ++ path)%string data max_retries Hm Hsign
                (Z.to_nat max_retries - 1) Hall 0 st) as H.
  rewrite Hfuel in H. apply H. lia.
Qed.

Lemma unreachable_env_always_unreachable : always_unreachable unreachable_env.
Proof.
  intros i req. exists 1. reflexivity.
Qed.

Lemma send_raises_after_network_failures_witness :
  let res := _send_request unreachable_env "GET" "/sessions" None 3 sample_state in
  fst res = Raise RequestException
  /\ sent (world (snd res)) = 3%nat
  /\ sleeps (trace (world (snd res))) = [2; 4]
  /\ exists l i w, trace (world (snd res)) = l ++ [EExchange i w].
Proof.
  apply (send_raises_after_network_failures unreachable_env "GET" "/sessions" None 3
           sample_state eq_refl unreachable_env_signer_works
           unreachable_env_always_unreachable).
  lia.
Defined.

(** ** Session deletion and creation *)

Lemma not_str_active (u : string) : u <> "" -> not_str (Some u) = false.
Proof.
  intros H. simpl. apply String.eqb_neq. exact H.
Qed.

Lemma is_2xx_accepted (r : Response) :
  is_2xx (status_code r) = true ->
  negb (response_ok r) || (300 <=? status_code r) = false.
Proof.
  unfold is_2xx, response_ok. intros H.
  apply andb_prop in H. destruct H as [H1 H2].
  apply Z.leb_le in H1. apply Z.ltb_lt in H2.
  replace (400 <=? status_code r) with false by (symmetry; apply Z.leb_gt; lia).
  replace (300 <=? status_code r) with false by (symmetry; apply Z.leb_gt; lia).
  reflexivity.
Qed.

Lemma status_ge_300_rejected (r : Response) :
  300 <= status_code r ->
  negb (response_ok r) || (300 <=? status_code r) = true.
Proof.
  intros H. apply orb_true_iff. right. apply Z.leb_le. exact H.
Qed.

Lemma status_lt_300_accepted (r : Response) :
  status_code r < 300 ->
  negb (response_ok r) || (300 <=? status_code r) = false.
Proof.
  unfold response_ok. intros H.
  replace (400 <=? status_code r) with false by (symmetry; apply Z.leb_gt; lia).
  replace (300 <=? status_code r) with false by (symmetry; apply Z.leb_gt; lia).
  reflexivity.
Qed.

Lemma delete_session_success (env : Env) (st st1 : State) (u : string) (r : Response) :
  session_url (self st) = Some u ->
  u <> "" ->
  _send_request env "DELETE" u None default_max_retries st = (Return (Some r), st1) ->
  is_2xx (status_code r) = true ->
  delete_session env st
  = (Return true, {| self := set_session_url (self st1) None; world := world st1 |}).
Proof.
  intros Hurl Hu Hsend H2xx.
  unfold delete_session, bind, get_self.
  rewrite Hurl, (not_str_active u Hu). cbn [format_str].
  rewrite Hsend, (is_2xx_accepted r H2xx). reflexivity.
Qed.

Lemma delete_session_inactive (env : Env) (st : State) :
  not_str (session_url (self st)) = true ->
  delete_session env st = (Return false, st).
Proof.
  intros H. unfold delete_session, bind, get_self. rewrite H. reflexivity.
Qed.

(** C7: [delete_session] twice in a row.  The first call, made while a
    session is held and answered by the dispatcher with a 2xx response,
    returns [True] and clears the session location; the second call returns
    [False] without raising and without doing anything. *)
Theorem delete_session_twice
    (env : Env) (st : State) (u : string) (r : Response) :
  session_url (self st) = Some u ->
  u <> "" ->
  fst (_send_request env "DELETE" u None default_max_retries st) = Return (Some r) ->
  is_2xx (status_code r) = true ->
  let first := delete_session env st in
  let second := delete_session env (snd first) in
  fst first = Return true
  /\ session_url (self (snd first)) = None
  /\ fst second = Return false
  /\ snd second = snd first.
Proof.
  intros Hurl Hu Hsend H2xx first second. subst second first.
  destruct (_send_request env "DELETE" u None default_max_retries st)
    as [o st1] eqn:Hres.
  simpl in Hsend. subst o.
  rewrite (delete_session_success env st st1 u r Hurl Hu Hres H2xx).
  cbn [fst snd].
  rewrite delete_session_inactive by reflexivity.
  auto.
Qed.

Lemma delete_session_twice_witness :
  let first := delete_session (scripted_env [] 204) (session_state "/sessions/1") in
  let second := delete_session (scripted_env [] 204) (snd first) in
  fst first = Return true
  /\ session_url (self (snd first)) = None
  /\ fst second = Return false
  /\ snd second = snd first.
Proof.
  apply (delete_session_twice (scripted_env [] 204) (session_state "/sessions/1")
           "/sessions/1" (status_response 204)).
  - reflexivity.
  - discriminate.
  - vm_compute. reflexivity.
  - reflexivity.
Defined.

(** C10, as stated, fails: a response outside 2xx is not always turned down
    before the handle is touched.  Status 101 is not 2xx, the dispatcher
    hands it back, [create_session] lets it through (it only turns down
    statuses from 300 on) and the session location held before is lost. *)
Lemma create_session_status_101_loses_session :
  let st := session_state "/sessions/1" in
  let res := create_session (scripted_env [] 101) st in
  is_2xx 101 = false
  /\ fst (_send_request (scripted_env [] 101) "POST" "/sessions"
            (Some (session_request_data (self st))) default_max_retries st)
     = Return (Some (status_response 101))
  /\ session_url (self (snd res)) <> session_url (self st).
Proof.
  vm_compute. repeat split. discriminate.
Qed.

Lemma create_session_unfold (env : Env) (st : State) :
  create_session env st
  = match _send_request env "POST" "/sessions"
            (Some (session_request_data (self st))) default_max_retries st with
    | (Return None, st1) => (Raise (PyException (CreateSessionFailed None)), st1)
    | (Return (Some r), st1) =>
        if negb (response_ok r) || (300 <=? status_code r)
        then (Raise (PyException (CreateSessionFailed (detail_of r))), st1)
        else
          let location := headers_get "location" (resp_headers r) in
          let st2 := {| self := set_session_url (self st1) location;
                        world := world st1 |} in
          if not_str location then (Raise (PyException NoSessionLocation), st2)
          else response_json r st2
    | (Raise e, st1) => (Raise e, st1)
    | (OutOfFuel, st1) => (OutOfFuel, st1)
    end.
Proof.
  unfold create_session, bind, get_self.
  destruct (_send_request env "POST" "/sessions" _ default_max_retries st)
    as [[[r|] | e |] st1]; try reflexivity.
  destruct (negb (response_ok r) || (300 <=? status_code r)); [reflexivity|].
  unfold put_session_url, raise. cbn [self session_url set_session_url].
  destruct (not_str (headers_get "location" (resp_headers r))); reflexivity.
Qed.

(** C10 (amended): [create_session] is not atomic on its missing-header
    path.  If the creation request yields no response, an exception, or a
    response with a status of 300 or more, [create_session] raises and leaves
    the object, hence the session location held before, as it was.  If it
    yields a response with a status under 300 (a 2xx, or one under 200, which
    is let through as well) that lacks a location header, the session
    location is first overwritten with [None] and only then the exception is
    raised: a location held before is lost. *)
Theorem create_session_failure_paths (env : Env) (st : State) :
  let sent_res :=
    _send_request env "POST" "/sessions" (Some (session_request_data (self st)))
      default_max_retries st in
  let res := create_session env st in
  ((fst sent_res = Return None
    \/ (exists e, fst sent_res = Raise e)
    \/ (exists r, fst sent_res = Return (Some r) /\ 300 <= status_code r)) ->
   (exists e, fst res = Raise e) /\ self (snd res) = self st)
  /\ (forall r,
        fst sent_res = Return (Some r) ->
        status_code r < 300 ->
        headers_get "location" (resp_headers r) = None ->
        fst res = Raise (PyException NoSessionLocation)
        /\ session_url (self (snd res)) = None).
Proof.
  intros sent_res res. subst res.
  pose proof (send_request_self env "POST" "/sessions"
                (Some (session_request_data (self st))) default_max_retries st)
    as Hself.
  fold sent_res in Hself. rewrite create_session_unfold. fold sent_res.
  destruct sent_res as [o st1]. cbn [fst snd] in *.
  split.
  - intros [H | [[e H] | [r [H Hst]]]]; subst o.
    + simpl. eauto.
    + simpl. eauto.
    + rewrite (status_ge_300_rejected r Hst). simpl. eauto.
  - intros r H Hst Hloc. subst o.
    rewrite (status_lt_300_accepted r Hst), Hloc. simpl. auto.
Qed.

Lemma create_session_failure_paths_witness :
  let st := session_state "/sessions/1" in
  ((exists e, fst (create_session (scripted_env [] 404) st) = Raise e)
   /\ self (snd (create_session (scripted_env [] 404) st)) = self st)
  /\ (fst (create_session (scripted_env [] 201) st)
      = Raise (PyException NoSessionLocation)
      /\ session_url (self (snd (create_session (scripted_env [] 201) st))) = None).
Proof.
  intros st. split.
  - apply (proj1 (create_session_failure_paths (scripted_env [] 404) st)).
    right. right. exists (status_response 404). split.
    + vm_compute. reflexivity.
    + simpl. lia.
  - apply (proj2 (create_session_failure_paths (scripted_env [] 201) st)
             (status_response 201)).
    + vm_compute. reflexivity.
    + simpl. lia.
    + reflexivity.
Defined.

(** ** The polling loops *)

Lemma sleep_then {A : Type} (d : Z) (k : M A) (st : State) :
  0 <= d -> (time_sleep d ;;; k) st = k (after_sleep d st).
Proof.
  intros H. unfold bind, time_sleep, after_sleep.
  replace (d <? 0) with false by (symmetry; apply Z.ltb_ge; exact H).
  reflexivity.
Qed.

Lemma decisive_false_session (v : JSON) :
  session_decisive v = false ->
  json_is_str v "idle" = false /\ json_in_strs v ["error"; "dead"; "killed"] = false.
Proof.
  unfold session_decisive. intros H. apply orb_false_iff in H. exact H.
Qed.

Lemma decisive_false_statement (v : JSON) :
  statement_decisive v = false ->
  json_is_str v "available" = false /\ json_in_strs v ["error"; "cancelled"] = false.
Proof.
  unfold statement_decisive. intros H. apply orb_false_iff in H. exact H.
Qed.

Lemma terminal_is_not_idle (v : JSON) :
  json_in_strs v ["error"; "dead"; "killed"] = true -> json_is_str v "idle" = false.
Proof.
  destruct v as [| b | n | s | items | fields]; simpl; try reflexivity.
  intros H.
  repeat (apply orb_prop in H; destruct H as [H | H];
          [apply String.eqb_eq in H; subst s; reflexivity|]).
  discriminate.
Qed.

Section PollingFacts.

Variable env : Env.
Variables (poll_interval start : Z).

(** Once the time allowed has passed, the session loop returns [False]
    whatever fuel is left. *)
Lemma wait_ready_loop_timeout (fuel : nat) (st : State) :
  timeout (self st) <= now (world st) - start ->
  wait_ready_loop env fuel poll_interval start st = (Return false, st).
Proof.
  intros H. destruct fuel; simpl; unfold bind, time_time, get_self;
    (replace (now (world st) - start <? timeout (self st)) with false
       by (symmetry; apply Z.ltb_ge; exact H)); reflexivity.
Qed.

Lemma statement_loop_timeout (fuel : nat) (location : string) (st : State) :
  timeout (self st) <= now (world st) - start ->
  statement_loop env fuel location poll_interval start st = (Return None, st).
Proof.
  intros H. destruct fuel; simpl; unfold bind, time_time, get_self;
    (replace (now (world st) - start <? timeout (self st)) with false
       by (symmetry; apply Z.ltb_ge; exact H)); reflexivity.
Qed.

(** One turn of the session loop, by what the poll reads. *)
Lemma wait_ready_loop_step (fuel : nat) (st st1 : State) (response : option Response) :
  now (world st) - start < timeout (self st) ->
  _send_request env "GET" (format_str (session_url (self st))) None
    default_max_retries st = (Return response, st1) ->
  wait_ready_loop env (S fuel) poll_interval start st
  = match read_state response with
    | NoAnswer =>
        (time_sleep poll_interval ;;;
         wait_ready_loop env fuel poll_interval start) st1
    | Unreadable e => (Raise e, st1)
    | StateIs v =>
        if json_is_str v "idle" then (Return true, st1)
        else if json_in_strs v ["error"; "dead"; "killed"] then (Return false, st1)
        else (time_sleep poll_interval ;;;
              wait_ready_loop env fuel poll_interval start) st1
    end.
Proof.
  intros Htime Hsend.
  cbn [wait_ready_loop]. unfold bind at 1, time_time at 1.
  unfold bind at 1, get_self at 1.
  apply Z.ltb_lt in Htime. rewrite Htime.
  unfold bind at 1. rewrite Hsend.
  unfold read_state.
  destruct response as [r|]; [|reflexivity].
  destruct (negb (response_ok r)); [reflexivity|].
  unfold response_json.
  destruct (json_body r) as [[| b | n | s | items | fields]|]; try reflexivity.
  unfold bind at 1, ret at 1. unfold json_get, bind at 1, ret at 1.
  destruct (json_is_str _ "idle"); [reflexivity|].
  destruct (json_in_strs _ _); reflexivity.
Qed.

(** One turn of the statement loop, by what the poll reads. *)
Lemma statement_loop_step (fuel : nat) (location : string) (st st1 : State)
    (response : option Response) :
  now (world st) - start < timeout (self st) ->
  _send_request env "GET" location None default_max_retries st
  = (Return response, st1) ->
  statement_loop env (S fuel) location poll_interval start st
  = match read_state response with
    | NoAnswer =>
        (time_sleep poll_interval ;;;
         statement_loop env fuel location poll_interval start) st1
    | Unreadable e => (Raise e, st1)
    | StateIs v =>
        if json_is_str v "available"
        then (Return (option_map (fun r => match json_body r with
                                           | Some d => d
                                           | None => JNull
                                           end) response), st1)
        else if json_in_strs v ["error"; "cancelled"]
        then (Return (option_map (fun r => match json_body r with
                                           | Some d => d
                                           | None => JNull
                                           end) response), st1)
        else (time_sleep poll_interval ;;;
              statement_loop env fuel location poll_interval start) st1
    end.
Proof.
  intros Htime Hsend.
  cbn [statement_loop]. unfold bind at 1, time_time at 1.
  unfold bind at 1, get_self at 1.
  apply Z.ltb_lt in Htime. rewrite Htime.
  unfold bind at 1. rewrite Hsend.
  unfold read_state.
  destruct response as [r|]; [|reflexivity].
  destruct (negb (response_ok r)); [reflexivity|].
  unfold response_json. cbn [option_map].
  destruct (json_body r) as [[| b | n | s | items | fields]|]; try reflexivity.
  unfold bind at 1, ret at 1. unfold json_get, bind at 1, ret at 1.
  destruct (json_is_str _ "available"); [reflexivity|].
  destruct (json_in_strs _ _); reflexivity.
Qed.

End PollingFacts.

Section QuietPolls.

Variable env : Env.
Variables (path : string) (poll_interval start : Z).

Lemma send_request_self_eq (method p : string) (data : option JSON) (mr : Z)
    (st st1 : State) (o : outcome (option Response)) :
  _send_request env method p data mr st = (o, st1) -> self st1 = self st.
Proof.
  intros H. pose proof (send_request_self env method p data mr st) as Hself.
  rewrite H in Hself. exact Hself.
Qed.

Lemma quiet_polls_self (decisive : JSON -> bool) (n : nat) (st st' : State) :
  quiet_polls env path poll_interval start decisive n st st' -> self st' = self st.
Proof.
  induction 1 as [st | n st response st1 st' Htime Hsend Hquiet Hpi Hrest IH].
  - reflexivity.
  - rewrite IH. simpl. eapply send_request_self_eq; eauto.
Qed.

(** Quiet polls are turns of the session loop that change nothing but the
    world. *)
Lemma wait_ready_loop_quiet (n : nat) (st st' : State) :
  quiet_polls env path poll_interval start session_decisive n st st' ->
  format_str (session_url (self st)) = path ->
  forall fuel,
    wait_ready_loop env (n + fuel) poll_interval start st
    = wait_ready_loop env fuel poll_interval start st'.
Proof.
  induction 1 as [st | n st response st1 st' Htime Hsend Hquiet Hpi Hrest IH];
    intros Hpath fuel.
  - reflexivity.
  - rewrite <- Hpath in Hsend.
    cbn [Nat.add].
    rewrite (wait_ready_loop_step env poll_interval start (n + fuel) st st1 response
               Htime Hsend).
    assert (Hgo : (time_sleep poll_interval ;;;
                   wait_ready_loop env (n + fuel) poll_interval start) st1
                  = wait_ready_loop env fuel poll_interval start st').
    { rewrite sleep_then by exact Hpi. apply IH.
      simpl. rewrite (send_request_self_eq _ _ _ _ _ _ _ Hsend). exact Hpath. }
    unfold quiet in Hquiet.
    destruct (read_state response) as [| e | v]; [exact Hgo | discriminate |].
    apply negb_true_iff in Hquiet.
    destruct (decisive_false_session v Hquiet) as [H1 H2].
    rewrite H1, H2. exact Hgo.
Qed.

(** The same for the statement loop. *)
Lemma statement_loop_quiet (n : nat) (st st' : State) :
  quiet_polls env path poll_interval start statement_decisive n st st' ->
  forall fuel,
    statement_loop env (n + fuel) path poll_interval start st
    = statement_loop env fuel path poll_interval start st'.
Proof.
  induction 1 as [st | n st response st1 st' Htime Hsend Hquiet Hpi Hrest IH];
    intros fuel.
  - reflexivity.
  - cbn [Nat.add].
    rewrite (statement_loop_step env poll_interval start (n + fuel) path st st1
               response Htime Hsend).
    assert (Hgo : (time_sleep poll_interval ;;;
                   statement_loop env (n + fuel) path poll_interval start) st1
                  = statement_loop env fuel path poll_interval start st').
    { rewrite sleep_then by exact Hpi. apply IH. }
    unfold quiet in Hquiet.
    destruct (read_state response) as [| e | v]; [exact Hgo | discriminate |].
    apply negb_true_iff in Hquiet.
    destruct (decisive_false_statement v Hquiet) as [H1 H2].
    rewrite H1, H2. exact Hgo.
Qed.

End QuietPolls.

Lemma wait_for_session_ready_unfold (env : Env) (fuel : nat) (poll_interval : Z)
    (st : State) (u : string) :
  session_url (self st) = Some u ->
  u <> "" ->
  wait_for_session_ready env fuel poll_interval st
  = wait_ready_loop env fuel poll_interval (now (world st)) st.
Proof.
  intros Hurl Hu. unfold wait_for_session_ready, bind, get_self, time_time.
  rewrite Hurl, (not_str_active u Hu). reflexivity.
Qed.

Lemma get_statement_result_unfold (env : Env) (fuel : nat) (location : string)
    (poll_interval : Z) (st : State) :
  get_statement_result env fuel location poll_interval st
  = statement_loop env fuel location poll_interval (now (world st)) st.
Proof.
  reflexivity.
Qed.

(** ** Waiting for a session *)

(** C8: [wait_for_session_ready] returns [True] the first time a poll reads
    the state idle, however many polls before it were quiet (read starting,
    another value that is not terminal, or nothing), and returns [False],
    without raising, the first time a poll reads error, dead or killed.  Here
    [n] quiet polls lead from [st] to [st_n], where the poll that is made
    (the time allowed has not passed) reads [v]. *)
Theorem wait_for_session_ready_first_decisive
    (env : Env) (st : State) (u : string) (poll_interval : Z)
    (n : nat) (st_n st' : State) (response : option Response) (v : JSON)
    (fuel : nat) :
  session_url (self st) = Some u ->
  u <> "" ->
  quiet_polls env u poll_interval (now (world st)) session_decisive n st st_n ->
  now (world st_n) - now (world st) < timeout (self st) ->
  _send_request env "GET" u None default_max_retries st_n = (Return response, st') ->
  read_state response = StateIs v ->
  (n < fuel)%nat ->
  (json_is_str v "idle" = true ->
   wait_for_session_ready env fuel poll_interval st = (Return true, st'))
  /\ (json_in_strs v ["error"; "dead"; "killed"] = true ->
      wait_for_session_ready env fuel poll_interval st = (Return false, st')).
Proof.
  intros Hurl Hu Hquiet Htime Hsend Hread Hfuel.
  assert (Hpath : format_str (session_url (self st)) = u) by (rewrite Hurl; reflexivity).
  pose proof (quiet_polls_self _ _ _ _ _ _ _ _ Hquiet) as Hself.
  rewrite (wait_for_session_ready_unfold env fuel poll_interval st u Hurl Hu).
  replace fuel with (n + S (fuel - n - 1))%nat by lia.
  rewrite (wait_ready_loop_quiet env u poll_interval (now (world st)) n st st_n
             Hquiet Hpath).
  rewrite <- Hself in Htime. rewrite <- Hpath, <- Hself in Hsend.
  rewrite (wait_ready_loop_step env poll_interval (now (world st)) _ st_n st'
             response Htime Hsend).
  rewrite Hread. split; intros Hv.
  - rewrite Hv. reflexivity.
  - rewrite (terminal_is_not_idle v Hv), Hv. reflexivity.
Qed.

Lemma wait_for_session_ready_first_decisive_witness :
  (exists st',
     wait_for_session_ready (polling_env ["starting"; "starting"] "idle") 3 5
       (session_state "/sessions/1") = (Return true, st'))
  /\ (exists st',
        wait_for_session_ready (polling_env ["starting"] "dead") 3 5
          (session_state "/sessions/1") = (Return false, st')).
Proof.
  split.
  - eexists.
    unshelve eapply (proj1 (wait_for_session_ready_first_decisive
                              (polling_env ["starting"; "starting"] "idle")
                              (session_state "/sessions/1") "/sessions/1" 5 2
                              _ _ _ _ 3 _ _ _ _ _ _ _)).
    all: cycle 3.
    + reflexivity.
    + discriminate.
    + quiet_step. quiet_step. apply quiet_polls_none.
    + vm_compute. reflexivity.
    + cbv. reflexivity.
    + cbv. reflexivity.
    + lia.
    + reflexivity.
  - eexists.
    unshelve eapply (proj2 (wait_for_session_ready_first_decisive
                              (polling_env ["starting"] "dead")
                              (session_state "/sessions/1") "/sessions/1" 5 1
                              _ _ _ _ 3 _ _ _ _ _ _ _)).
    all: cycle 3.
    + reflexivity.
    + discriminate.
    + quiet_step. apply quiet_polls_none.
    + vm_compute. reflexivity.
    + cbv. reflexivity.
    + cbv. reflexivity.
    + lia.
    + reflexivity.
Defined.

(** ** Timeouts of the polling loops *)

(** C4, as stated, fails: no exception is raised when the time allowed runs
    out.  A session that stays in starting for the whole 300 seconds makes
    [wait_for_session_ready] return [False], the very value it returns for a
    session reported dead; a statement that stays in running makes
    [get_statement_result] return [None]. *)
Lemma polling_timeout_raises_nothing :
  fst (wait_for_session_ready (polling_env [] "starting") 60 5
         (session_state "/sessions/1")) = Return false
  /\ fst (wait_for_session_ready (polling_env [] "dead") 60 5
            (session_state "/sessions/1")) = Return false
  /\ fst (get_statement_result (polling_env [] "running") 150
            "/sessions/1/statements/0" 2 (session_state "/sessions/1"))
     = Return None.
Proof.
  vm_compute. repeat split.
Qed.

(** C4 (amended): both polling operations return a plain failure value,
    without raising, when the elapsed time has reached the configured timeout
    and no ready or terminal state was read in the polls made until then
    ([n] quiet polls lead from [st] to [st'], where the time is up):
    [wait_for_session_ready] returns [False], the value it also returns for a
    terminal state reported by the service, and [get_statement_result]
    returns [None].  A single poll for which the dispatcher has no response
    ([None], or a response that is false as a condition) never ends a loop by
    itself: the loop sleeps [poll_interval] and polls again. *)
Theorem polling_timeout_returns_failure_value (env : Env) (poll_interval : Z) :
  (forall st u n st' fuel,
     session_url (self st) = Some u ->
     u <> "" ->
     quiet_polls env u poll_interval (now (world st)) session_decisive n st st' ->
     timeout (self st) <= now (world st') - now (world st) ->
     (n <= fuel)%nat ->
     wait_for_session_ready env fuel poll_interval st = (Return false, st'))
  /\ (forall st location n st' fuel,
        quiet_polls env location poll_interval (now (world st)) statement_decisive
          n st st' ->
        timeout (self st) <= now (world st') - now (world st) ->
        (n <= fuel)%nat ->
        get_statement_result env fuel location poll_interval st = (Return None, st'))
  /\ (forall start st st1 response fuel,
        now (world st) - start < timeout (self st) ->
        _send_request env "GET" (format_str (session_url (self st))) None
          default_max_retries st = (Return response, st1) ->
        not_response response = true ->
        0 <= poll_interval ->
        wait_ready_loop env (S fuel) poll_interval start st
        = wait_ready_loop env fuel poll_interval start (after_sleep poll_interval st1))
  /\ (forall start location st st1 response fuel,
        now (world st) - start < timeout (self st) ->
        _send_request env "GET" location None default_max_retries st
        = (Return response, st1) ->
        not_response response = true ->
        0 <= poll_interval ->
        statement_loop env (S fuel) location poll_interval start st
        = statement_loop env fuel location poll_interval start
            (after_sleep poll_interval st1)).
Proof.
  assert (Hno : forall response,
            not_response response = true -> read_state response = NoAnswer).
  { intros [r|] H; [|reflexivity]. simpl in *. rewrite H. reflexivity. }
  repeat split.
  - intros st u n st' fuel Hurl Hu Hquiet Htime Hfuel.
    assert (Hpath : format_str (session_url (self st)) = u)
      by (rewrite Hurl; reflexivity).
    pose proof (quiet_polls_self _ _ _ _ _ _ _ _ Hquiet) as Hself.
    rewrite (wait_for_session_ready_unfold env fuel poll_interval st u Hurl Hu).
    replace fuel with (n + (fuel - n))%nat by lia.
    rewrite (wait_ready_loop_quiet env u poll_interval (now (world st)) n st st'
               Hquiet Hpath).
    apply wait_ready_loop_timeout. rewrite Hself. exact Htime.
  - intros st location n st' fuel Hquiet Htime Hfuel.
    pose proof (quiet_polls_self _ _ _ _ _ _ _ _ Hquiet) as Hself.
    rewrite get_statement_result_unfold.
    replace fuel with (n + (fuel - n))%nat by lia.
    rewrite (statement_loop_quiet env location poll_interval (now (world st)) n st st'
               Hquiet).
    apply statement_loop_timeout. rewrite Hself. exact Htime.
  - intros start st st1 response fuel Htime Hsend Hnone Hpi.
    rewrite (wait_ready_loop_step env poll_interval start fuel st st1 response
               Htime Hsend).
    rewrite (Hno response Hnone). apply sleep_then. exact Hpi.
  - intros start location st st1 response fuel Htime Hsend Hnone Hpi.
    rewrite (statement_loop_step env poll_interval start fuel location st st1
               response Htime Hsend).
    rewrite (Hno response Hnone). apply sleep_then. exact Hpi.
Qed.

Lemma polling_timeout_returns_failure_value_witness :
  (exists st',
     wait_for_session_ready (polling_env [] "starting") 2 5
       (session_state_with_timeout "/sessions/1" 12) = (Return false, st'))
  /\ (exists st',
        get_statement_result (polling_env [] "running") 2
          "/sessions/1/statements/0" 5
          (session_state_with_timeout "/sessions/1" 12) = (Return None, st')).
Proof.
  split.
  - eexists.
    unshelve eapply (proj1 (polling_timeout_returns_failure_value
                              (polling_env [] "starting") 5)
                       (session_state_with_timeout "/sessions/1" 12)
                       "/sessions/1" 2%nat _ 2%nat _ _ _ _ _).
    + reflexivity.
    + discriminate.
    + quiet_step. quiet_step. apply quiet_polls_none.
    + vm_compute. discriminate.
    + lia.
  - eexists.
    unshelve eapply (proj1 (proj2 (polling_timeout_returns_failure_value
                                     (polling_env [] "running") 5))
                       (session_state_with_timeout "/sessions/1" 12)
                       "/sessions/1/statements/0" 2%nat _ 2%nat _ _ _).
    + quiet_step. quiet_step. apply quiet_polls_none.
    + vm_compute. discriminate.
    + lia.
Defined.

(** ** Submitting a statement and polling for its result *)

(** An exchange answered with a response that is not retried ends the
    dispatcher's run at once. *)
Lemma send_request_answered (env : Env) (method path : string) (data : option JSON)
    (max_retries : Z) (st : State) (lat : Z) (r : Response) :
  supported method = true ->
  signer_works env ->
  1 <= max_retries ->
  answers env (sent (world st)) lat r ->
  retryable (status_code r) = false \/ is_2xx (status_code r) = true ->
  _send_request env method path data max_retries st
  = (Return (Some r),
     after_attempt env method (endpoint (self st) ++ path)%string data st
       (Responds lat r)).
Proof.
  intros Hm Hsign Hmax Hans Hfinal. rewrite send_request_unfold.
  assert (Hfuel : exists k, Z.to_nat max_retries = S k).
  { exists (Z.to_nat max_retries - 1)%nat. lia. }
  destruct Hfuel as (k & Hfuel). rewrite Hfuel.
  destruct (next_reply_exchange env method (endpoint (self st) ++ path)%string data
              Hsign st) as (prepped & _ & Hnext).
  rewrite Hans in Hnext.
  apply send_loop_final_status; auto. lia.
Qed.

Lemma submit_statement_success (env : Env) (code : string) (st st1 : State)
    (u location : string) (r : Response) (body : JSON) :
  session_url (self st) = Some u ->
  u <> "" ->
  _send_request env "POST" (u ++ "/statements")%string
    (Some (JDict [("code", JStr code)])) default_max_retries st
  = (Return (Some r), st1) ->
  is_2xx (status_code r) = true ->
  headers_get "location" (resp_headers r) = Some location ->
  location <> "" ->
  json_body r = Some body ->
  submit_statement env code st = (Return (location, body), st1).
Proof.
  intros Hurl Hu Hsend H2xx Hloc Hne Hbody.
  unfold submit_statement, bind, get_self.
  rewrite Hurl, (not_str_active u Hu). cbn [format_str].
  rewrite Hsend, (is_2xx_accepted r H2xx), Hloc, (not_str_active location Hne).
  unfold response_json. rewrite Hbody. reflexivity.
Qed.

(** The first attempt of the dispatcher, when the request it signs is
    answered with a response that is not retried: that response is returned,
    and the log gets the signature and the exchange of that request. *)
Lemma send_request_first_reply (env : Env) (method path : string)
    (data : option JSON) (max_retries : Z) (st : State) (prepped : Request)
    (lat : Z) (r : Response) :
  supported method = true ->
  1 <= max_retries ->
  add_auth env (now (world st))
    (unsigned_request (self st) method (endpoint (self st) ++ path)%string data)
  = Some prepped ->
  exchange env (sent (world st)) (wire_request method prepped data)
  = Responds lat r ->
  retryable (status_code r) = false \/ is_2xx (status_code r) = true ->
  _send_request env method path data max_retries st
  = (Return (Some r),
     with_world (fun w =>
       advance lat
         (count_exchange
            (log (EExchange (sent w) (wire_request method prepped data))
               (log (ESign (now w)
                       (unsigned_request (self st) method
                          (endpoint (self st) ++ path)%string data)) w)))) st).
Proof.
  intros Hm Hmax Hsign Hreply Hfinal. rewrite send_request_unfold.
  assert (Hfuel : exists k, Z.to_nat max_retries = S k).
  { exists (Z.to_nat max_retries - 1)%nat. lia. }
  destruct Hfuel as (k & Hfuel). rewrite Hfuel.
  rewrite (send_loop_final_status env method (endpoint (self st) ++ path)%string
             data max_retries k 0 st lat r); auto; try lia.
  - unfold after_attempt. rewrite Hsign. reflexivity.
  - unfold next_reply. rewrite Hsign, Hreply. reflexivity.
Qed.

(** C9, as stated, fails: a location header on the submission and polls that
    reply available with result 2 are not enough.  [submit_statement] also
    parses the body of the submission's answer, and raises when it is not
    JSON, so that no statement record is obtained; and with a timeout that is
    not positive [get_statement_result] makes no poll and returns [None]. *)
Lemma round_trip_needs_json_body_and_time :
  fst (submit_statement bare_env "1 + 1" (session_state "/sessions/1"))
  = Raise JSONDecodeError
  /\ fst (get_statement_result kind_env 10 "/sessions/1/statements/0" 2
            (session_state_with_timeout "/sessions/1" 0))
     = Return None.
Proof.
  vm_compute. split; reflexivity.
Qed.

(** C9 (amended): round trip.  With a session held and a positive timeout,
    [submit_statement("1 + 1")] against a service that answers the submission
    (the POST carrying the code) with a 2xx response that has a location
    header and a JSON body, and answers the poll (a GET) with a 2xx response
    whose body is a record with state available and result 2, returns that
    location; [get_statement_result] on it then makes one poll, without any
    sleep, and returns the very record of the poll's answer, whose state is
    available and whose result is 2.  In all, two requests are signed and
    sent: the POST of the code to the statements of the session, and the GET
    of the location. *)
Theorem submit_and_poll_round_trip
    (env : Env) (st : State) (u location : string)
    (lat1 lat2 : Z) (r1 r2 : Response) (body1 : JSON)
    (record : list (string * JSON)) (poll_interval : Z) (fuel : nat) :
  signer_works env ->
  session_url (self st) = Some u ->
  u <> "" ->
  0 < timeout (self st) ->
  (forall req,
     req_method req = "POST" ->
     req_data req = Some (JDict [("code", JStr "1 + 1")]) ->
     exchange env (sent (world st)) req = Responds lat1 r1) ->
  is_2xx (status_code r1) = true ->
  headers_get "location" (resp_headers r1) = Some location ->
  location <> "" ->
  json_body r1 = Some body1 ->
  (forall req,
     req_method req = "GET" ->
     req_data req = None ->
     exchange env (S (sent (world st))) req = Responds lat2 r2) ->
  is_2xx (status_code r2) = true ->
  json_body r2 = Some (JDict record) ->
  dict_get "state" record = Some (JStr "available") ->
  dict_get "result" record = Some (JNum 2) ->
  let submitted := submit_statement env "1 + 1" st in
  let polled := get_statement_result env (S fuel) location poll_interval
                  (snd submitted) in
  let post :=
    unsigned_request (self st) "POST"
      (endpoint (self st) ++ (u ++ "/statements"))%string
      (Some (JDict [("code", JStr "1 + 1")])) in
  let get :=
    unsigned_request (self st) "GET" (endpoint (self st) ++ location)%string None in
  fst submitted = Return (location, body1)
  /\ fst polled = Return (Some (JDict record))
  /\ dict_get "state" record = Some (JStr "available")
  /\ dict_get "result" record = Some (JNum 2)
  /\ sent (world (snd polled)) = S (S (sent (world st)))
  /\ self (snd polled) = self st
  /\ exists signed_post signed_get,
       add_auth env (now (world st)) post = Some signed_post
       /\ add_auth env (now (world st) + lat1) get = Some signed_get
       /\ trace (world (snd polled))
          = trace (world st)
            ++ [ESign (now (world st)) post;
                EExchange (sent (world st))
                  (wire_request "POST" signed_post
                     (Some (JDict [("code", JStr "1 + 1")])));
                ESign (now (world st) + lat1) get;
                EExchange (S (sent (world st)))
                  (wire_request "GET" signed_get None)].
Proof.
  intros Hsign Hurl Hu Htmo Hans1 H2xx1 Hloc Hne Hbody1 Hans2 H2xx2 Hbody2
    Hstate Hresult submitted polled post get.
  subst polled submitted.
  (* the submission *)
  destruct (add_auth env (now (world st)) post) as [p1|] eqn:Hs1;
    [|exfalso; exact (Hsign _ _ Hs1)].
  pose proof (Hans1 (wire_request "POST" p1 (Some (JDict [("code", JStr "1 + 1")])))
                eq_refl eq_refl) as Hreply1.
  pose proof (send_request_first_reply env "POST" (u ++ "/statements")%string
                (Some (JDict [("code", JStr "1 + 1")])) default_max_retries st
                p1 lat1 r1 eq_refl ltac:(unfold default_max_retries; lia)
                Hs1 Hreply1 (or_intror H2xx1)) as Hsend1.
  rewrite (submit_statement_success env "1 + 1" st _ u location r1 body1
             Hurl Hu Hsend1 H2xx1 Hloc Hne Hbody1).
  cbn [fst snd]. split; [reflexivity|].
  fold post in Hsend1 |- *.
  set (st1 := with_world (fun w =>
                advance lat1
                  (count_exchange
                     (log (EExchange (sent w)
                             (wire_request "POST" p1
                                (Some (JDict [("code", JStr "1 + 1")]))))
                        (log (ESign (now w) post) w)))) st) in *.
  (* the poll *)
  assert (Hself1 : self st1 = self st) by reflexivity.
  assert (Hsent1 : sent (world st1) = S (sent (world st))) by reflexivity.
  assert (Hnow1 : now (world st1) = now (world st) + lat1) by reflexivity.
  destruct (add_auth env (now (world st) + lat1) get) as [p2|] eqn:Hs2;
    [|exfalso; exact (Hsign _ _ Hs2)].
  pose proof (Hans2 (wire_request "GET" p2 None) eq_refl eq_refl) as Hreply2.
  assert (Hs2' : add_auth env (now (world st1))
                   (unsigned_request (self st1) "GET"
                      (endpoint (self st1) ++ location)%string None) = Some p2)
    by exact Hs2.
  assert (Hreply2' : exchange env (sent (world st1)) (wire_request "GET" p2 None)
                     = Responds lat2 r2) by exact Hreply2.
  pose proof (send_request_first_reply env "GET" location None default_max_retries
                st1 p2 lat2 r2 eq_refl ltac:(unfold default_max_retries; lia)
                Hs2' Hreply2' (or_intror H2xx2)) as Hsend2.
  rewrite get_statement_result_unfold.
  assert (Htime : now (world st1) - now (world st1) < timeout (self st1))
    by (rewrite Hself1; lia).
  rewrite (statement_loop_step env poll_interval (now (world st1)) fuel location
             st1 _ (Some r2) Htime Hsend2).
  assert (Hok : negb (response_ok r2) = false).
  { pose proof (is_2xx_accepted r2 H2xx2) as H.
    apply orb_false_iff in H. tauto. }
  unfold read_state. rewrite Hok, Hbody2, Hstate.
  cbn [json_is_str]. cbn [option_map]. rewrite Hbody2.
  change (String.eqb "available" "available") with true. cbn iota.
  cbn [fst snd].
  split; [reflexivity|]. split; [reflexivity|]. split; [exact Hresult|].
  split; [reflexivity|]. split; [reflexivity|].
  exists p1, p2. split; [reflexivity|]. split; [reflexivity|].
  simpl. rewrite <- !app_assoc. reflexivity.
Qed.

Lemma statement_env_signer_works : signer_works statement_env.
Proof.
  intros t req. discriminate.
Qed.

Lemma submit_and_poll_round_trip_witness :
  let st := session_state "/sessions/1" in
  let submitted := submit_statement kind_env "1 + 1" st in
  let polled := get_statement_result kind_env 1 "/sessions/1/statements/0" 2
                  (snd submitted) in
  fst submitted
  = Return ("/sessions/1/statements/0",
            JDict [("id", JNum 0); ("state", JStr "waiting")])
  /\ fst polled = Return (Some (JDict available_record))
  /\ dict_get "state" available_record = Some (JStr "available")
  /\ dict_get "result" available_record = Some (JNum 2)
  /\ sent (world (snd polled)) = 2%nat.
Proof.
  intros st submitted polled.
  destruct (submit_and_poll_round_trip kind_env (session_state "/sessions/1")
              "/sessions/1" "/sessions/1/statements/0" 1 1
              submission_response available_response
              (JDict [("id", JNum 0); ("state", JStr "waiting")])
              available_record 2 0)
    as (H1 & H2 & H3 & H4 & H5 & _).
  - intros t req. discriminate.
  - reflexivity.
  - discriminate.
  - vm_compute. reflexivity.
  - intros req Hm _. simpl. rewrite Hm. reflexivity.
  - reflexivity.
  - reflexivity.
  - discriminate.
  - reflexivity.
  - intros req Hm _. simpl. rewrite Hm. reflexivity.
  - reflexivity.
  - reflexivity.
  - reflexivity.
  - reflexivity.
  - repeat split; assumption.
Defined.

(** ** More on the dispatcher *)

(** X1: with a budget of at least one attempt, a response whose status is not
    in the retryable set (a 2xx, a 404, ...) is returned at once: one
    signature, one exchange, no sleep. *)
Theorem send_returns_unretried_response_at_once
    (env : Env) (method path : string) (data : option JSON) (max_retries : Z)
    (st : State) (lat : Z) (r : Response) :
  supported method = true ->
  signer_works env ->
  1 <= max_retries ->
  answers env (sent (world st)) lat r ->
  retryable (status_code r) = false ->
  let res := _send_request env method path data max_retries st in
  fst res = Return (Some r)
  /\ sent (world (snd res)) = S (sent (world st))
  /\ exists t w,
       trace (world (snd res))
       = trace (world st)
         ++ [ESign t (unsigned_request (self st) method
                        (endpoint (self st) ++ path)%string data);
             EExchange (sent (world st)) w].
Proof.
  intros Hm Hsign Hmax Hans Hfinal res. subst res.
  rewrite (send_request_answered env method path data max_retries st lat r
             Hm Hsign Hmax Hans (or_introl Hfinal)).
  cbn [fst snd]. split; [reflexivity|].
  destruct (after_attempt_world env method (endpoint (self st) ++ path)%string data
              Hsign st (Responds lat r)) as (_ & Hsent & t & w & Htr).
  split; [exact Hsent|]. exists t, w. exact Htr.
Qed.

Lemma send_returns_unretried_response_at_once_witness :
  let res := _send_request (scripted_env [] 404) "GET" "/sessions" None 3 sample_state in
  fst res = Return (Some (status_response 404))
  /\ sent (world (snd res)) = 1%nat
  /\ exists t w,
       trace (world (snd res))
       = [ESign t (unsigned_request sample_client "GET"
                     (endpoint sample_client ++ "/sessions")%string None);
          EExchange 0 w].
Proof.
  apply (send_returns_unretried_response_at_once (scripted_env [] 404)
           "GET" "/sessions" None 3 sample_state 1 (status_response 404)).
  - reflexivity.
  - apply scripted_env_signer_works.
  - lia.
  - exact (scripted_env_answers [] 404 0).
  - reflexivity.
Defined.

(** X2: with [max_retries <= 0] the dispatcher does nothing at all: nothing
    is signed or sent, the method is not even looked at, and [None] is
    returned. *)
Theorem send_without_budget_does_nothing
    (env : Env) (method path : string) (data : option JSON) (max_retries : Z)
    (st : State) :
  max_retries <= 0 ->
  _send_request env method path data max_retries st = (Return None, st).
Proof.
  intros H. rewrite send_request_unfold. apply send_loop_exit. exact H.
Qed.

Lemma send_without_budget_does_nothing_witness :
  _send_request unreachable_env "PUT" "/sessions" None 0 sample_state
  = (Return None, sample_state).
Proof.
  apply (send_without_budget_does_nothing unreachable_env "PUT" "/sessions" None 0
           sample_state).
  lia.
Defined.

(** X3: a method other than GET, POST and DELETE is refused with an exception
    after the request was signed once: nothing is sent and nothing is
    retried. *)
Theorem send_refuses_unsupported_method
    (env : Env) (method path : string) (data : option JSON) (max_retries : Z)
    (st : State) :
  supported method = false ->
  1 <= max_retries ->
  let res := _send_request env method path data max_retries st in
  (fst res = Raise (UnsupportedMethod method) \/ fst res = Raise SignerError)
  /\ sent (world (snd res)) = sent (world st)
  /\ trace (world (snd res))
     = trace (world st)
       ++ [ESign (now (world st))
             (unsigned_request (self st) method (endpoint (self st) ++ path)%string
                data)].
Proof.
  intros Hm Hmax res. subst res. rewrite send_request_unfold.
  assert (Hfuel : exists k, Z.to_nat max_retries = S k).
  { exists (Z.to_nat max_retries - 1)%nat. lia. }
  destruct Hfuel as (k & Hfuel). rewrite Hfuel. simpl.
  replace (0 <? max_retries) with true by (symmetry; apply Z.ltb_lt; lia).
  run_monad. fold (unsigned_request (self st) method
                     (endpoint (self st) ++ path)%string data).
  destruct (add_auth env (now (world st)) _) as [prepped|].
  - rewrite Hm. simpl. auto.
  - simpl. auto.
Qed.

Lemma send_refuses_unsupported_method_witness :
  let res := _send_request (scripted_env [] 200) "PUT" "/sessions" None 3 sample_state in
  (fst res = Raise (UnsupportedMethod "PUT") \/ fst res = Raise SignerError)
  /\ sent (world (snd res)) = 0%nat
  /\ trace (world (snd res))
     = [ESign 0 (unsigned_request sample_client "PUT"
                   (endpoint sample_client ++ "/sessions")%string None)].
Proof.
  apply (send_refuses_unsupported_method (scripted_env [] 200) "PUT" "/sessions"
           None 3 sample_state).
  - reflexivity.
  - lia.
Defined.

(** X4: when the signer raises, the dispatcher lets the exception through at
    once: nothing is sent, nothing is retried, there is no sleep. *)
Theorem send_does_not_retry_signing
    (env : Env) (method path : string) (data : option JSON) (max_retries : Z)
    (st : State) :
  1 <= max_retries ->
  add_auth env (now (world st))
    (unsigned_request (self st) method (endpoint (self st) ++ path)%string data)
  = None ->
  let res := _send_request env method path data max_retries st in
  fst res = Raise SignerError
  /\ sent (world (snd res)) = sent (world st)
  /\ trace (world (snd res))
     = trace (world st)
       ++ [ESign (now (world st))
             (unsigned_request (self st) method (endpoint (self st) ++ path)%string
                data)].
Proof.
  intros Hmax Hsign res. subst res. rewrite send_request_unfold.
  assert (Hfuel : exists k, Z.to_nat max_retries = S k).
  { exists (Z.to_nat max_retries - 1)%nat. lia. }
  destruct Hfuel as (k & Hfuel). rewrite Hfuel. simpl.
  replace (0 <? max_retries) with true by (symmetry; apply Z.ltb_lt; lia).
  run_monad. fold (unsigned_request (self st) method
                     (endpoint (self st) ++ path)%string data).
  rewrite Hsign. simpl. auto.
Qed.

Lemma send_does_not_retry_signing_witness :
  let res := _send_request unsigned_env "GET" "/sessions" None 3 sample_state in
  fst res = Raise SignerError
  /\ sent (world (snd res)) = 0%nat
  /\ trace (world (snd res))
     = [ESign 0 (unsigned_request sample_client "GET"
                   (endpoint sample_client ++ "/sessions")%string None)].
Proof.
  apply (send_does_not_retry_signing unsigned_env "GET" "/sessions" None 3
           sample_state).
  - lia.
  - reflexivity.
Defined.

Lemma total_app (l1 l2 : list Z) : total (l1 ++ l2) = total l1 + total l2.
Proof.
  unfold total. induction l1 as [|x l1 IH]; simpl; [reflexivity|].
  rewrite IH. lia.
Qed.

Lemma total_powers_of_two (m : nat) :
  total (map (fun k => 2 ^ Z.of_nat k) (seq 1 m)) = 2 ^ (Z.of_nat m + 1) - 2.
Proof.
  induction m as [|m IH].
  - reflexivity.
  - rewrite seq_S, map_app, total_app, IH. simpl map. unfold total at 1. simpl fold_right.
    replace (Z.of_nat (1 + m)) with (Z.of_nat m + 1) by lia.
    replace (Z.of_nat (S m) + 1) with (Z.of_nat m + 1 + 1) by lia.
    rewrite (Z.pow_add_r 2 (Z.of_nat m + 1) 1) by lia.
    lia.
Qed.

(** X5: whatever the service does, one call of the dispatcher sleeps at most
    [2 ^ (max_retries + 1) - 2] seconds in all (14 seconds with the default
    of 3), and not at all when [max_retries <= 0]. *)
Theorem send_total_backoff_bounded
    (env : Env) (method path : string) (data : option JSON) (max_retries : Z)
    (st : State) :
  let st' := snd (_send_request env method path data max_retries st) in
  exists evs,
    trace (world st') = trace (world st) ++ evs
    /\ 0 <= total (sleeps evs) <= 2 ^ (Z.max 0 max_retries + 1) - 2.
Proof.
  intros st'. subst st'. rewrite send_request_unfold.
  destruct (send_loop_shape env method (endpoint (self st) ++ path)%string data
              max_retries (Z.to_nat max_retries) 0 st)
    as (evs & Htr & Hshape & _ & _).
  destruct (attempts_counts _ _ _ _ _ _ _ Hshape) as (Hsigns & Hexch & Hsl).
  pose proof (attempts_sleeps _ _ _ _ _ _ _ Hshape) as Hsleeps.
  rewrite Z.sub_0_r in Hsigns.
  exists evs. split; [exact Htr|].
  rewrite Hsleeps.
  change (map (fun k : nat => 2 ^ (0 + Z.of_nat k)))
    with (map (fun k : nat => 2 ^ Z.of_nat k)).
  rewrite total_powers_of_two.
  set (m := List.length (sleeps evs)) in *.
  assert (Hm : Z.of_nat m <= Z.max 0 max_retries) by lia.
  assert (Hlo : 2 ^ 1 <= 2 ^ (Z.of_nat m + 1)) by (apply Z.pow_le_mono_r; lia).
  assert (Hhi : 2 ^ (Z.of_nat m + 1) <= 2 ^ (Z.max 0 max_retries + 1))
    by (apply Z.pow_le_mono_r; lia).
  change (2 ^ 1) with 2 in Hlo. lia.
Qed.

Section TransientRuns.

Variable env : Env.
Variables (method url : string) (data : option JSON) (max_retries : Z).

Hypothesis method_supported : supported method = true.
Hypothesis signer_ok : signer_works env.

(** One turn of the loop on a transient reply, whichever kind, with attempts
    left. *)
Lemma send_loop_retry_transient (fuel : nat) (rc : Z) (st : State) (reply : Reply) :
  rc + 1 < max_retries ->
  next_reply env method url data st = Some reply ->
  transient reply = true ->
  send_loop env (S fuel) method url data max_retries rc st
  = send_loop env fuel method url data max_retries (rc + 1)
      (after_sleep (2 ^ (rc + 1)) (after_attempt env method url data st reply)).
Proof.
  intros Hlt Hnext Htr. destruct reply as [lat | lat r].
  - apply send_loop_retry_failure; auto.
  - apply send_loop_retry_status; auto. lia.
Qed.

(** After [k] transient replies in a row, with the budget not used up, an
    answer that is not retried is returned; there was one sleep per transient
    reply. *)
Lemma send_loop_recovers (lat : Z) (r : Response) (k : nat) :
  retryable (status_code r) = false ->
  forall (fuel : nat) (rc : Z) (st : State),
    transient_run env (sent (world st)) k ->
    answers env (sent (world st) + k) lat r ->
    rc + Z.of_nat k < max_retries ->
    (k < fuel)%nat ->
    let res := send_loop env fuel method url data max_retries rc st in
    fst res = Return (Some r)
    /\ sent (world (snd res)) = (sent (world st) + S k)%nat
    /\ sleeps (trace (world (snd res)))
       = sleeps (trace (world st))
         ++ map (fun j => 2 ^ (rc + Z.of_nat j)) (seq 1 k).
Proof.
  intros Hfinal. induction k as [|k IH]; intros fuel rc st Hrun Hans Hlt Hfuel res;
    subst res; (destruct fuel as [|fuel]; [lia|]);
    destruct (next_reply_exchange env method url data signer_ok st)
      as (prepped & _ & Hnext).
  - rewrite Nat.add_0_r in Hans. rewrite Hans in Hnext.
    rewrite (send_loop_final_status env method url data max_retries fuel rc st lat r)
      by (auto; lia).
    cbn [fst snd].
    destruct (after_attempt_world env method url data signer_ok st (Responds lat r))
      as (_ & Hsent & t & w & Htr).
    rewrite Hsent, Htr, sleeps_app. simpl. rewrite app_nil_r.
    repeat split. lia.
  - set (reply := exchange env (sent (world st)) (wire_request method prepped data))
      in *.
    assert (Htrans : transient reply = true).
    { pose proof (Hrun 0%nat (wire_request method prepped data) ltac:(lia)) as H.
      rewrite Nat.add_0_r in H. exact H. }
    rewrite (send_loop_retry_transient fuel rc st reply) by (auto; lia).
    set (st1 := after_sleep (2 ^ (rc + 1))
                  (after_attempt env method url data st reply)).
    destruct (after_attempt_world env method url data signer_ok st reply)
      as (_ & Hs2 & t & w & Ht2).
    destruct (after_sleep_world (2 ^ (rc + 1))
                (after_attempt env method url data st reply)) as (_ & Hs1 & Ht1).
    fold st1 in Hs1, Ht1. rewrite Hs2 in Hs1. rewrite Ht2 in Ht1.
    destruct (IH fuel (rc + 1) st1) as (Hres & Hsent & Hsleeps).
    + intros j req Hj. rewrite Hs1.
      replace (S (sent (world st)) + j)%nat with (sent (world st) + S j)%nat by lia.
      apply Hrun. lia.
    + rewrite Hs1.
      replace (S (sent (world st)) + k)%nat with (sent (world st) + S k)%nat by lia.
      exact Hans.
    + lia.
    + lia.
    + split; [exact Hres|]. split.
      * rewrite Hsent, Hs1. lia.
      * rewrite Hsleeps, Ht1, !sleeps_app. simpl.
        rewrite app_nil_r, <- app_assoc. simpl. f_equal. f_equal.
        rewrite <- (seq_shift k 1), map_map.
        apply map_ext. intros j. f_equal. lia.
Qed.

End TransientRuns.

(** X6: network failures and retryable statuses share one budget.  If the
    first [k] exchanges get transient replies of either kind, [k] is less
    than [max_retries], and the next exchange gets an answer that is not
    retried, the dispatcher returns that answer after [k + 1] exchanges and
    [k] sleeps of 2, 4, ..., [2 ^ k] seconds. *)
Theorem send_recovers_after_transient_failures
    (env : Env) (method path : string) (data : option JSON) (max_retries : Z)
    (st : State) (k : nat) (lat : Z) (r : Response) :
  supported method = true ->
  signer_works env ->
  transient_run env (sent (world st)) k ->
  answers env (sent (world st) + k) lat r ->
  retryable (status_code r) = false ->
  Z.of_nat k < max_retries ->
  let res := _send_request env method path data max_retries st in
  fst res = Return (Some r)
  /\ sent (world (snd res)) = (sent (world st) + S k)%nat
  /\ sleeps (trace (world (snd res)))
     = sleeps (trace (world st))
       ++ map (fun j => base_backoff_seconds ^ Z.of_nat j) (seq 1 k).
Proof.
  intros Hm Hsign Hrun Hans Hfinal Hk res. subst res. rewrite send_request_unfold.
  apply (send_loop_recovers env method (endpoint (self st) ++ path)%string data
           max_retries Hm Hsign lat r k Hfinal (Z.to_nat max_retries) 0 st Hrun Hans);
    lia.
Qed.

Lemma send_recovers_after_transient_failures_witness :
  let res := _send_request flaky_env "GET" "/sessions" None 3 sample_state in
  fst res = Return (Some (status_response 200))
  /\ sent (world (snd res)) = 3%nat
  /\ sleeps (trace (world (snd res))) = [2; 4].
Proof.
  apply (send_recovers_after_transient_failures flaky_env "GET" "/sessions" None 3
           sample_state 2 1 (status_response 200)).
  - reflexivity.
  - intros t req. discriminate.
  - intros j req Hj. destruct j as [|[|j]]; [reflexivity | reflexivity | lia].
  - intros req. reflexivity.
  - reflexivity.
  - lia.
Defined.

(** ** More on the session operations *)

Lemma is_2xx_lt_300 (status : Z) : is_2xx status = true -> status < 300.
Proof.
  unfold is_2xx. intros H. apply andb_prop in H. destruct H as [_ H].
  apply Z.ltb_lt in H. exact H.
Qed.

Lemma create_session_answered
    (env : Env) (st : State) (lat : Z) (r : Response) (location : string) :
  signer_works env ->
  answers env (sent (world st)) lat r ->
  is_2xx (status_code r) = true ->
  headers_get "location" (resp_headers r) = Some location ->
  location <> "" ->
  let res := create_session env st in
  session_url (self (snd res)) = Some location
  /\ sent (world (snd res)) = S (sent (world st))
  /\ fst res = match json_body r with
               | Some body => Return body
               | None => Raise JSONDecodeError
               end.
Proof.
  intros Hsign Hans H2xx Hloc Hne res. subst res.
  rewrite create_session_unfold.
  rewrite (send_request_answered env "POST" "/sessions"
             (Some (session_request_data (self st))) default_max_retries st lat r
             eq_refl Hsign ltac:(unfold default_max_retries; lia) Hans
             (or_intror H2xx)).
  rewrite (is_2xx_accepted r H2xx), Hloc. cbn zeta.
  rewrite (not_str_active location Hne).
  destruct (after_attempt_world env "POST" (endpoint (self st) ++ "/sessions")%string
              (Some (session_request_data (self st))) Hsign st (Responds lat r))
    as (_ & Hsent & _).
  unfold response_json.
  destruct (json_body r) as [body|]; simpl; rewrite Hsent; auto.
Qed.

(** X7: when the creation request is answered with a 2xx response that
    carries a location header, [create_session] records that location as the
    session held, whatever was held before and whether or not the body can be
    read: it returns the parsed body, or raises the decoding error with the
    new location already recorded. *)
Theorem create_session_records_location
    (env : Env) (st : State) (lat : Z) (r : Response) (location : string) :
  signer_works env ->
  answers env (sent (world st)) lat r ->
  is_2xx (status_code r) = true ->
  headers_get "location" (resp_headers r) = Some location ->
  location <> "" ->
  let res := create_session env st in
  session_url (self (snd res)) = Some location
  /\ sent (world (snd res)) = S (sent (world st))
  /\ fst res = match json_body r with
               | Some body => Return body
               | None => Raise JSONDecodeError
               end.
Proof.
  exact (create_session_answered env st lat r location).
Qed.

Lemma demo_env_signer_works : signer_works demo_env.
Proof.
  intros t req. discriminate.
Qed.

Lemma create_session_records_location_witness :
  let st := session_state "/sessions/7" in
  let res := create_session demo_env st in
  session_url (self (snd res)) = Some "/sessions/1"
  /\ sent (world (snd res)) = 1%nat
  /\ fst res = Return (JDict [("id", JNum 1); ("state", JStr "starting")]).
Proof.
  apply (create_session_records_location demo_env (session_state "/sessions/7")
           1 created_response "/sessions/1").
  - exact demo_env_signer_works.
  - intros req. reflexivity.
  - reflexivity.
  - reflexivity.
  - discriminate.
Defined.

(** The operations that need a session refuse to work without one, before
    anything is signed or sent. *)
Lemma operations_without_session
    (env : Env) (st : State) (fuel : nat) (poll_interval : Z) (code : string) :
  not_str (session_url (self st)) = true ->
  wait_for_session_ready env fuel poll_interval st
  = (Raise (PyException NoActiveSession), st)
  /\ submit_statement env code st = (Raise (PyException NoActiveSession), st)
  /\ delete_session env st = (Return false, st).
Proof.
  intros H. unfold wait_for_session_ready, submit_statement, delete_session,
    bind, get_self, raise, ret.
  rewrite H. auto.
Qed.

(** X8: the life of a session.  When the creation request and then the
    deletion request are answered with 2xx responses, [create_session]
    followed by [delete_session] leaves no session held after two exchanges,
    and from then on [wait_for_session_ready] and [submit_statement] raise and
    [delete_session] returns [False], all three without signing or sending
    anything. *)
Theorem session_lifecycle
    (env : Env) (st : State) (lat1 lat2 : Z) (r1 r2 : Response)
    (location : string) (body : JSON)
    (fuel : nat) (poll_interval : Z) (code : string) :
  signer_works env ->
  answers env (sent (world st)) lat1 r1 ->
  is_2xx (status_code r1) = true ->
  headers_get "location" (resp_headers r1) = Some location ->
  location <> "" ->
  json_body r1 = Some body ->
  answers env (S (sent (world st))) lat2 r2 ->
  is_2xx (status_code r2) = true ->
  let created := create_session env st in
  let deleted := delete_session env (snd created) in
  let final := snd deleted in
  fst created = Return body
  /\ fst deleted = Return true
  /\ session_url (self final) = None
  /\ sent (world final) = S (S (sent (world st)))
  /\ wait_for_session_ready env fuel poll_interval final
     = (Raise (PyException NoActiveSession), final)
  /\ submit_statement env code final = (Raise (PyException NoActiveSession), final)
  /\ delete_session env final = (Return false, final).
Proof.
  intros Hsign Hans1 H2xx1 Hloc Hne Hbody Hans2 H2xx2 created deleted final.
  subst final deleted created.
  destruct (create_session_answered env st lat1 r1 location Hsign Hans1 H2xx1 Hloc Hne)
    as (Hurl & Hsent & Hres).
  rewrite Hbody in Hres.
  set (st1 := snd (create_session env st)) in *.
  rewrite <- Hsent in Hans2.
  pose proof (send_request_answered env "DELETE" location None default_max_retries st1
                lat2 r2 eq_refl Hsign ltac:(unfold default_max_retries; lia)
                Hans2 (or_intror H2xx2)) as Hsend.
  rewrite (delete_session_success env st1 _ location r2 Hurl Hne Hsend H2xx2).
  cbn [fst snd].
  destruct (after_attempt_world env "DELETE" (endpoint (self st1) ++ location)%string
              None Hsign st1 (Responds lat2 r2)) as (_ & Hsent2 & _).
  split; [exact Hres|]. split; [reflexivity|]. split; [reflexivity|].
  split; [cbn [world sent]; rewrite Hsent2, Hsent; reflexivity|].
  apply operations_without_session. reflexivity.
Qed.

Lemma session_lifecycle_witness :
  let created := create_session demo_env sample_state in
  let deleted := delete_session demo_env (snd created) in
  let final := snd deleted in
  fst created = Return (JDict [("id", JNum 1); ("state", JStr "starting")])
  /\ fst deleted = Return true
  /\ session_url (self final) = None
  /\ sent (world final) = 2%nat
  /\ wait_for_session_ready demo_env 10 5 final
     = (Raise (PyException NoActiveSession), final)
  /\ submit_statement demo_env "1 + 1" final
     = (Raise (PyException NoActiveSession), final)
  /\ delete_session demo_env final = (Return false, final).
Proof.
  apply (session_lifecycle demo_env sample_state 1 1
           created_response (state_response "idle") "/sessions/1"
           (JDict [("id", JNum 1); ("state", JStr "starting")]) 10 5 "1 + 1").
  - exact demo_env_signer_works.
  - intros req. reflexivity.
  - reflexivity.
  - reflexivity.
  - discriminate.
  - reflexivity.
  - intros req. reflexivity.
  - reflexivity.
Defined.

Lemma delete_session_unfold (env : Env) (st : State) (u : string) :
  session_url (self st) = Some u ->
  u <> "" ->
  delete_session env st
  = match _send_request env "DELETE" u None default_max_retries st with
    | (Return None, st1) => (Return false, st1)
    | (Return (Some r), st1) =>
        if negb (response_ok r) || (300 <=? status_code r)
        then (Return false, st1)
        else (Return true,
              {| self := set_session_url (self st1) None; world := world st1 |})
    | (Raise e, st1) => (Raise e, st1)
    | (OutOfFuel, st1) => (OutOfFuel, st1)
    end.
Proof.
  intros Hurl Hu. unfold delete_session, bind, get_self.
  rewrite Hurl, (not_str_active u Hu). cbn [format_str].
  destruct (_send_request env "DELETE" u None default_max_retries st)
    as [[[r|] | e |] st1]; try reflexivity.
  destruct (negb (response_ok r) || (300 <=? status_code r)); reflexivity.
Qed.

(** X9: [delete_session] gives up the session location exactly when the
    dispatcher hands back a response with a status under 300.  In every other
    case (no response, a status of 300 or more, an exception) the object is
    left as it was, so the deletion can be tried again. *)
Theorem delete_session_clears_only_on_success
    (env : Env) (st : State) (u : string) :
  session_url (self st) = Some u ->
  u <> "" ->
  let sent_res := _send_request env "DELETE" u None default_max_retries st in
  let res := delete_session env st in
  (fst res = Return true <->
   exists r, fst sent_res = Return (Some r) /\ status_code r < 300)
  /\ (fst res = Return true -> session_url (self (snd res)) = None)
  /\ (fst res <> Return true -> self (snd res) = self st).
Proof.
  intros Hurl Hu sent_res res. subst res.
  pose proof (send_request_self env "DELETE" u None default_max_retries st) as Hself.
  fold sent_res in Hself.
  rewrite (delete_session_unfold env st u Hurl Hu). fold sent_res.
  destruct sent_res as [[[r|] | e |] st1]; cbn [fst snd] in *.
  - destruct (Z.lt_ge_cases (status_code r) 300) as [Hlt | Hge].
    + rewrite (status_lt_300_accepted r Hlt). cbn [fst snd]. repeat split.
      * intros _. exists r. auto.
      * intros H. contradiction.
    + rewrite (status_ge_300_rejected r Hge). cbn [fst snd]. repeat split.
      * discriminate.
      * intros (r' & Hr & Hlt). injection Hr as Hr. subst r'. lia.
      * discriminate.
      * intros _. exact Hself.
  - repeat split; try discriminate.
    + intros (r & Hr & _). discriminate.
    + intros _. exact Hself.
  - repeat split; try discriminate.
    + intros (r & Hr & _). discriminate.
    + intros _. exact Hself.
  - repeat split; try discriminate.
    + intros (r & Hr & _). discriminate.
    + intros _. exact Hself.
Qed.

Lemma delete_session_clears_only_on_success_witness :
  let st := session_state "/sessions/1" in
  (fst (delete_session (scripted_env [] 404) st) <> Return true
   -> self (snd (delete_session (scripted_env [] 404) st)) = self st)
  /\ (fst (delete_session (scripted_env [] 204) st) = Return true
      -> session_url (self (snd (delete_session (scripted_env [] 204) st))) = None).
Proof.
  intros st. split.
  - apply (delete_session_clears_only_on_success (scripted_env [] 404) st
             "/sessions/1"); [reflexivity | discriminate].
  - apply (delete_session_clears_only_on_success (scripted_env [] 204) st
             "/sessions/1"); [reflexivity | discriminate].
Defined.

Lemma list_sessions_unfold (env : Env) (st : State) :
  list_sessions env st
  = match _send_request env "GET" "/sessions" None default_max_retries st with
    | (Return None, st1) => (Return None, st1)
    | (Return (Some r), st1) =>
        if negb (response_ok r) || (300 <=? status_code r)
        then (Return None, st1)
        else match json_body r with
             | Some body => (Return (Some body), st1)
             | None => (Raise JSONDecodeError, st1)
             end
    | (Raise e, st1) => (Raise e, st1)
    | (OutOfFuel, st1) => (OutOfFuel, st1)
    end.
Proof.
  unfold list_sessions, bind.
  destruct (_send_request env "GET" "/sessions" None default_max_retries st)
    as [[[r|] | e |] st1]; try reflexivity.
  destruct (negb (response_ok r) || (300 <=? status_code r)); [reflexivity|].
  unfold response_json. destruct (json_body r); reflexivity.
Qed.

(** X10: [list_sessions] reports a failed request as [None] instead of
    raising: that is what it returns when the dispatcher has no response or a
    response with a status of 300 or more.  A response with a status under
    300 gives the parsed listing (or the decoding error when the body is not
    JSON).  The object is never changed. *)
Theorem list_sessions_reports_failure_as_none (env : Env) (st : State) :
  let sent_res := _send_request env "GET" "/sessions" None default_max_retries st in
  let res := list_sessions env st in
  self (snd res) = self st
  /\ (fst sent_res = Return None
      \/ (exists r, fst sent_res = Return (Some r) /\ 300 <= status_code r) ->
      fst res = Return None)
  /\ (forall r,
        fst sent_res = Return (Some r) ->
        status_code r < 300 ->
        fst res = match json_body r with
                  | Some body => Return (Some body)
                  | None => Raise JSONDecodeError
                  end).
Proof.
  intros sent_res res. subst res.
  pose proof (send_request_self env "GET" "/sessions" None default_max_retries st)
    as Hself.
  fold sent_res in Hself. rewrite list_sessions_unfold. fold sent_res.
  destruct sent_res as [[[r|] | e |] st1]; cbn [fst snd] in *.
  - destruct (Z.lt_ge_cases (status_code r) 300) as [Hlt | Hge].
    + rewrite (status_lt_300_accepted r Hlt). repeat split.
      * destruct (json_body r); exact Hself.
      * intros [H | (r' & Hr & Hge)]; [discriminate|].
        injection Hr as Hr. subst r'. lia.
      * intros r' Hr _. injection Hr as Hr. subst r'.
        destruct (json_body r); reflexivity.
    + rewrite (status_ge_300_rejected r Hge). repeat split.
      * exact Hself.
      * intros r' Hr Hlt. injection Hr as Hr. subst r'. lia.
  - repeat split; [exact Hself | intros r Hr; discriminate].
  - repeat split; [exact Hself | | intros r Hr; discriminate].
    intros [H | (r & Hr & _)]; discriminate.
  - repeat split; [exact Hself | | intros r Hr; discriminate].
    intros [H | (r & Hr & _)]; discriminate.
Qed.

Lemma list_sessions_reports_failure_as_none_witness :
  fst (list_sessions (scripted_env [] 503) sample_state) = Return None
  /\ fst (list_sessions (scripted_env [] 404) sample_state) = Return None.
Proof.
  split.
  - apply (list_sessions_reports_failure_as_none (scripted_env [] 503) sample_state).
    left. vm_compute. reflexivity.
  - apply (list_sessions_reports_failure_as_none (scripted_env [] 404) sample_state).
    right. exists (status_response 404). split; [vm_compute; reflexivity | simpl; lia].
Defined.

(** ** More on the polling loops *)

Section PollingMore.

Variable env : Env.
Variables (poll_interval start : Z).

(** A turn of a loop in which the dispatcher raises: the exception goes up. *)
Lemma wait_ready_loop_raise (fuel : nat) (st st1 : State) (e : exn) :
  now (world st) - start < timeout (self st) ->
  _send_request env "GET" (format_str (session_url (self st))) None
    default_max_retries st = (Raise e, st1) ->
  wait_ready_loop env (S fuel) poll_interval start st = (Raise e, st1).
Proof.
  intros Htime Hsend. cbn [wait_ready_loop].
  unfold bind at 1, time_time at 1. unfold bind at 1, get_self at 1.
  apply Z.ltb_lt in Htime. rewrite Htime.
  unfold bind at 1. rewrite Hsend. reflexivity.
Qed.

Lemma statement_loop_raise (fuel : nat) (location : string) (st st1 : State)
    (e : exn) :
  now (world st) - start < timeout (self st) ->
  _send_request env "GET" location None default_max_retries st = (Raise e, st1) ->
  statement_loop env (S fuel) location poll_interval start st = (Raise e, st1).
Proof.
  intros Htime Hsend. cbn [statement_loop].
  unfold bind at 1, time_time at 1. unfold bind at 1, get_self at 1.
  apply Z.ltb_lt in Htime. rewrite Htime.
  unfold bind at 1. rewrite Hsend. reflexivity.
Qed.

Lemma sleep_then_self {A : Type} (k : M A) (st : State) :
  (forall st', self (snd (k st')) = self st') ->
  self (snd ((time_sleep poll_interval ;;; k) st)) = self st.
Proof.
  intros Hk. unfold bind, time_sleep.
  destruct (poll_interval <? 0); [reflexivity|].
  rewrite Hk. reflexivity.
Qed.

(** The loops never touch the fields of the object. *)
Lemma wait_ready_loop_self (fuel : nat) :
  forall st, self (snd (wait_ready_loop env fuel poll_interval start st)) = self st.
Proof.
  induction fuel as [|fuel IH]; intros st.
  - simpl. unfold bind, time_time, get_self, ret, out_of_fuel.
    destruct (now (world st) - start <? timeout (self st)); reflexivity.
  - destruct (Z.lt_ge_cases (now (world st) - start) (timeout (self st)))
      as [Hlt | Hge].
    2:{ rewrite wait_ready_loop_timeout by exact Hge. reflexivity. }
    destruct (_send_request env "GET" (format_str (session_url (self st))) None
                default_max_retries st) as [[response | e |] st1] eqn:Hsend.
    + pose proof (send_request_self_eq env _ _ _ _ _ _ _ Hsend) as Hself.
      rewrite (wait_ready_loop_step env poll_interval start fuel st st1 response
                 Hlt Hsend).
      destruct (read_state response) as [| e | v].
      * rewrite sleep_then_self by exact IH. exact Hself.
      * exact Hself.
      * destruct (json_is_str v "idle"); [exact Hself|].
        destruct (json_in_strs v _); [exact Hself|].
        rewrite sleep_then_self by exact IH. exact Hself.
    + rewrite (wait_ready_loop_raise fuel st st1 e Hlt Hsend).
      exact (send_request_self_eq env _ _ _ _ _ _ _ Hsend).
    + exfalso. apply (send_request_total env "GET"
                        (format_str (session_url (self st))) None
                        default_max_retries st).
      rewrite Hsend. reflexivity.
Qed.

Lemma statement_loop_self (fuel : nat) (location : string) :
  forall st,
    self (snd (statement_loop env fuel location poll_interval start st)) = self st.
Proof.
  induction fuel as [|fuel IH]; intros st.
  - simpl. unfold bind, time_time, get_self, ret, out_of_fuel.
    destruct (now (world st) - start <? timeout (self st)); reflexivity.
  - destruct (Z.lt_ge_cases (now (world st) - start) (timeout (self st)))
      as [Hlt | Hge].
    2:{ rewrite statement_loop_timeout by exact Hge. reflexivity. }
    destruct (_send_request env "GET" location None default_max_retries st)
      as [[response | e |] st1] eqn:Hsend.
    + pose proof (send_request_self_eq env _ _ _ _ _ _ _ Hsend) as Hself.
      rewrite (statement_loop_step env poll_interval start fuel location st st1
                 response Hlt Hsend).
      destruct (read_state response) as [| e | v].
      * rewrite sleep_then_self by exact IH. exact Hself.
      * exact Hself.
      * destruct (json_is_str v "available"); [exact Hself|].
        destruct (json_in_strs v _); [exact Hself|].
        rewrite sleep_then_self by exact IH. exact Hself.
    + rewrite (statement_loop_raise fuel location st st1 e Hlt Hsend).
      exact (send_request_self_eq env _ _ _ _ _ _ _ Hsend).
    + exfalso. apply (send_request_total env "GET" location None
                        default_max_retries st).
      rewrite Hsend. reflexivity.
Qed.

End PollingMore.

Lemma submit_statement_self (env : Env) (code : string) (st : State) :
  self (snd (submit_statement env code st)) = self st.
Proof.
  unfold submit_statement, bind, get_self.
  destruct (not_str (session_url (self st))); [reflexivity|].
  destruct (_send_request env "POST" _ _ default_max_retries st)
    as [[[r|] | e |] st1] eqn:Hsend;
    pose proof (send_request_self_eq env _ _ _ _ _ _ _ Hsend) as Hself;
    try exact Hself.
  destruct (negb (response_ok r) || (300 <=? status_code r)); [exact Hself|].
  destruct (not_str (headers_get "location" (resp_headers r))); [exact Hself|].
  unfold response_json. destruct (json_body r); exact Hself.
Qed.

(** X11: the session location is changed by [create_session] and
    [delete_session] only.  Waiting for the session, submitting a statement
    and polling for its result leave every field of the object as it was,
    whatever the service answers and however the call ends. *)
Theorem polling_and_submitting_keep_object
    (env : Env) (st : State) (fuel : nat) (poll_interval : Z)
    (code location : string) :
  self (snd (wait_for_session_ready env fuel poll_interval st)) = self st
  /\ self (snd (submit_statement env code st)) = self st
  /\ self (snd (get_statement_result env fuel location poll_interval st)) = self st.
Proof.
  split; [|split].
  - unfold wait_for_session_ready, bind, get_self, time_time.
    destruct (not_str (session_url (self st))); [reflexivity|].
    apply wait_ready_loop_self.
  - apply submit_statement_self.
  - rewrite get_statement_result_unfold. apply statement_loop_self.
Qed.

(** X12: [get_statement_result] returns the whole statement record the first
    time a poll reads a state on which it stops, be it available, error or
    cancelled, however many quiet polls came before; the caller tells success
    from failure by the state in the record, not by the kind of result. *)
Theorem get_statement_result_first_decisive
    (env : Env) (st : State) (location : string) (poll_interval : Z)
    (n : nat) (st_n st' : State) (r : Response)
    (record : list (string * JSON)) (v : JSON) (fuel : nat) :
  quiet_polls env location poll_interval (now (world st)) statement_decisive
    n st st_n ->
  now (world st_n) - now (world st) < timeout (self st) ->
  _send_request env "GET" location None default_max_retries st_n
  = (Return (Some r), st') ->
  response_ok r = true ->
  json_body r = Some (JDict record) ->
  dict_get "state" record = Some v ->
  statement_decisive v = true ->
  (n < fuel)%nat ->
  get_statement_result env fuel location poll_interval st
  = (Return (Some (JDict record)), st').
Proof.
  intros Hquiet Htime Hsend Hok Hbody Hstate Hdec Hfuel.
  pose proof (quiet_polls_self _ _ _ _ _ _ _ _ Hquiet) as Hself.
  rewrite get_statement_result_unfold.
  replace fuel with (n + S (fuel - n - 1))%nat by lia.
  rewrite (statement_loop_quiet env location poll_interval (now (world st)) n st st_n
             Hquiet).
  rewrite <- Hself in Htime.
  rewrite (statement_loop_step env poll_interval (now (world st)) _ location st_n st'
             (Some r) Htime Hsend).
  unfold read_state. rewrite Hok, Hbody, Hstate. cbn [negb option_map].
  rewrite Hbody.
  unfold statement_decisive in Hdec.
  destruct (json_is_str v "available"); [reflexivity|].
  cbn [orb] in Hdec. rewrite Hdec. reflexivity.
Qed.

Lemma get_statement_result_first_decisive_witness :
  exists st',
    get_statement_result (polling_env ["running"] "error") 2
      "/sessions/1/statements/0" 2 (session_state "/sessions/1")
    = (Return (Some (JDict [("id", JNum 0); ("state", JStr "error")])), st').
Proof.
  eexists.
  eapply (get_statement_result_first_decisive
            (polling_env ["running"] "error") (session_state "/sessions/1")
            "/sessions/1/statements/0" 2 1 _ _ (state_response "error")
            [("id", JNum 0); ("state", JStr "error")] (JStr "error") 2).
  - quiet_step. apply quiet_polls_none.
  - vm_compute. reflexivity.
  - cbv. reflexivity.
  - reflexivity.
  - reflexivity.
  - reflexivity.
  - reflexivity.
  - lia.
Defined.

(** X13: the polling loops absorb nothing but quiet polls.  If, after any
    number of quiet polls and within the time allowed, the dispatcher raises
    (the retries of one poll were used up on network failures, the signer
    failed), or the body of the answer cannot be read (it is not JSON, or not
    a dictionary), the exception ends [wait_for_session_ready] and
    [get_statement_result] at once. *)
Theorem polling_lets_exceptions_through
    (env : Env) (poll_interval : Z) (st : State) (n : nat) (st_n st' : State)
    (e : exn) (fuel : nat) :
  now (world st_n) - now (world st) < timeout (self st) ->
  (n < fuel)%nat ->
  (forall u,
     session_url (self st) = Some u ->
     u <> "" ->
     quiet_polls env u poll_interval (now (world st)) session_decisive n st st_n ->
     (_send_request env "GET" u None default_max_retries st_n = (Raise e, st')
      \/ exists response,
           _send_request env "GET" u None default_max_retries st_n
           = (Return response, st')
           /\ read_state response = Unreadable e) ->
     wait_for_session_ready env fuel poll_interval st = (Raise e, st'))
  /\ (forall location,
        quiet_polls env location poll_interval (now (world st)) statement_decisive
          n st st_n ->
        (_send_request env "GET" location None default_max_retries st_n
         = (Raise e, st')
         \/ exists response,
              _send_request env "GET" location None default_max_retries st_n
              = (Return response, st')
              /\ read_state response = Unreadable e) ->
        get_statement_result env fuel location poll_interval st = (Raise e, st')).
Proof.
  intros Htime Hfuel. split.
  - intros u Hurl Hu Hquiet Hpoll.
    assert (Hpath : format_str (session_url (self st)) = u)
      by (rewrite Hurl; reflexivity).
    pose proof (quiet_polls_self _ _ _ _ _ _ _ _ Hquiet) as Hself.
    rewrite (wait_for_session_ready_unfold env fuel poll_interval st u Hurl Hu).
    replace fuel with (n + S (fuel - n - 1))%nat by lia.
    rewrite (wait_ready_loop_quiet env u poll_interval (now (world st)) n st st_n
               Hquiet Hpath).
    rewrite <- Hself in Htime. rewrite <- Hpath, <- Hself in Hpoll.
    destruct Hpoll as [Hsend | (response & Hsend & Hread)].
    + apply wait_ready_loop_raise; assumption.
    + rewrite (wait_ready_loop_step env poll_interval (now (world st)) _ st_n st'
                 response Htime Hsend).
      rewrite Hread. reflexivity.
  - intros location Hquiet Hpoll.
    pose proof (quiet_polls_self _ _ _ _ _ _ _ _ Hquiet) as Hself.
    rewrite get_statement_result_unfold.
    replace fuel with (n + S (fuel - n - 1))%nat by lia.
    rewrite (statement_loop_quiet env location poll_interval (now (world st)) n st
               st_n Hquiet).
    rewrite <- Hself in Htime.
    destruct Hpoll as [Hsend | (response & Hsend & Hread)].
    + apply statement_loop_raise; assumption.
    + rewrite (statement_loop_step env poll_interval (now (world st)) _ location
                 st_n st' response Htime Hsend).
      rewrite Hread. reflexivity.
Qed.

Lemma polling_lets_exceptions_through_witness :
  (exists st',
     wait_for_session_ready unreachable_env 5 5 (session_state "/sessions/1")
     = (Raise RequestException, st'))
  /\ (exists st',
        get_statement_result (body_env (Some (JList []))) 5
          "/sessions/1/statements/0" 2 (session_state "/sessions/1")
        = (Raise AttributeError, st')).
Proof.
  split.
  - eexists.
    eapply (proj1 (polling_lets_exceptions_through unreachable_env 5
                     (session_state "/sessions/1") 0
                     (session_state "/sessions/1") _ RequestException 5
                     ltac:(vm_compute; reflexivity) ltac:(lia)) "/sessions/1").
    + reflexivity.
    + discriminate.
    + apply quiet_polls_none.
    + left. cbv. reflexivity.
  - eexists.
    eapply (proj2 (polling_lets_exceptions_through
                     (body_env (Some (JList []))) 2
                     (session_state "/sessions/1") 0
                     (session_state "/sessions/1") _ AttributeError 5
                     ltac:(vm_compute; reflexivity) ltac:(lia))
              "/sessions/1/statements/0").
    + apply quiet_polls_none.
    + right. eexists. split; [cbv; reflexivity | reflexivity].
Defined.

(** X14: a record without a [state] field is read as the state unknown, which
    stops neither loop, and so is any value of the field other than the
    states named in the loop, whatever its type: after such an answer the
    loop sleeps [poll_interval] and polls again. *)
Theorem polling_goes_on_after_unknown_state
    (env : Env) (poll_interval start : Z) (st st1 : State) (r : Response)
    (fields : list (string * JSON)) (fuel : nat) :
  now (world st) - start < timeout (self st) ->
  response_ok r = true ->
  json_body r = Some (JDict fields) ->
  0 <= poll_interval ->
  (_send_request env "GET" (format_str (session_url (self st))) None
     default_max_retries st = (Return (Some r), st1) ->
   dict_get "state" fields = None
   \/ (exists v, dict_get "state" fields = Some v /\ session_decisive v = false) ->
   wait_ready_loop env (S fuel) poll_interval start st
   = wait_ready_loop env fuel poll_interval start (after_sleep poll_interval st1))
  /\ (forall location,
        _send_request env "GET" location None default_max_retries st
        = (Return (Some r), st1) ->
        dict_get "state" fields = None
        \/ (exists v, dict_get "state" fields = Some v
                      /\ statement_decisive v = false) ->
        statement_loop env (S fuel) location poll_interval start st
        = statement_loop env fuel location poll_interval start
            (after_sleep poll_interval st1)).
Proof.
  intros Htime Hok Hbody Hpi. split.
  - intros Hsend Hstate.
    rewrite (wait_ready_loop_step env poll_interval start fuel st st1 (Some r)
               Htime Hsend).
    unfold read_state. rewrite Hok, Hbody. cbn [negb].
    destruct Hstate as [Hnone | (v & Hv & Hdec)].
    + rewrite Hnone. simpl. apply sleep_then. exact Hpi.
    + rewrite Hv. destruct (decisive_false_session v Hdec) as [H1 H2].
      rewrite H1, H2. apply sleep_then. exact Hpi.
  - intros location Hsend Hstate.
    rewrite (statement_loop_step env poll_interval start fuel location st st1
               (Some r) Htime Hsend).
    unfold read_state. rewrite Hok, Hbody. cbn [negb].
    destruct Hstate as [Hnone | (v & Hv & Hdec)].
    + rewrite Hnone. simpl. apply sleep_then. exact Hpi.
    + rewrite Hv. destruct (decisive_false_statement v Hdec) as [H1 H2].
      rewrite H1, H2. apply sleep_then. exact Hpi.
Qed.

Lemma polling_goes_on_after_unknown_state_witness :
  let env := body_env (Some (JDict [("id", JNum 0)])) in
  let st := session_state "/sessions/1" in
  wait_ready_loop env 3 5 0 st
  = wait_ready_loop env 2 5 0
      (after_sleep 5 (snd (_send_request env "GET" "/sessions/1" None
                             default_max_retries st))).
Proof.
  intros env st.
  apply (proj1 (polling_goes_on_after_unknown_state env 5 0 st
                  (snd (_send_request env "GET" "/sessions/1" None
                          default_max_retries st))
                  {| status_code := 200; resp_headers := []; text := "";
                     json_body := Some (JDict [("id", JNum 0)]) |}
                  [("id", JNum 0)] 2
                  ltac:(vm_compute; reflexivity) eq_refl eq_refl ltac:(lia))).
  - vm_compute. reflexivity.
  - left. reflexivity.
Defined.

(** ** The polling loops end *)

Section Clock.

Variable env : Env.
Hypothesis latencies_ok : latencies_nonnegative env.

(** The clock never goes back during a run of the dispatcher. *)
Lemma send_loop_clock (method url : string) (data : option JSON) (max_retries : Z)
    (fuel : nat) :
  forall (rc : Z) (st : State),
    now (world st)
    <= now (world (snd (send_loop env fuel method url data max_retries rc st))).
Proof.
  induction fuel as [|fuel IH]; intros rc st; simpl.
  - destruct (rc <? max_retries); simpl; lia.
  - destruct (rc <? max_retries); [|simpl; lia].
    run_monad.
    destruct (add_auth env (now (world st)) _) as [prepped|]; [|simpl; lia].
    destruct (supported method); [|simpl; lia]. simpl.
    pose proof (latencies_ok (sent (world st)) (wire_request method prepped data))
      as Hlat.
    pose proof (Z.pow_nonneg 2 (rc + 1) ltac:(lia)) as Hpow.
    destruct (exchange env (sent (world st)) _) as [lat | lat r];
      cbn [latency_of] in *.
    + destruct (rc + 1 <? max_retries); [|simpl; lia].
      rewrite pow2_not_negative.
      eapply Z.le_trans; [|apply IH]. simpl. lia.
    + destruct ((200 <=? status_code r) && (status_code r <? 300)); [simpl; lia|].
      destruct (retryable (status_code r)); [|simpl; lia].
      rewrite pow2_not_negative.
      eapply Z.le_trans; [|apply IH]. simpl. lia.
Qed.

Lemma send_request_clock (method path : string) (data : option JSON)
    (max_retries : Z) (st st1 : State) (o : outcome (option Response)) :
  _send_request env method path data max_retries st = (o, st1) ->
  now (world st) <= now (world st1).
Proof.
  intros H.
  pose proof (send_loop_clock method (endpoint (self st) ++ path)%string data
                max_retries (Z.to_nat max_retries) 0 st) as Hclock.
  rewrite <- send_request_unfold, H in Hclock. exact Hclock.
Qed.

Variables (poll_interval start : Z).
Hypothesis interval_positive : 0 < poll_interval.

Lemma sleep_then_ends {A : Type} (k : M A) (st : State) :
  fst (k (after_sleep poll_interval st)) <> OutOfFuel ->
  fst ((time_sleep poll_interval ;;; k) st) <> OutOfFuel.
Proof.
  intros H. rewrite sleep_then by lia. exact H.
Qed.

(** Every turn that goes on costs at least [poll_interval] seconds, so the
    fuel needed is bounded by the time left. *)
Lemma wait_ready_loop_ends (fuel : nat) :
  forall st,
    timeout (self st) - (now (world st) - start) <= Z.of_nat fuel * poll_interval ->
    fst (wait_ready_loop env fuel poll_interval start st) <> OutOfFuel.
Proof.
  induction fuel as [|fuel IH]; intros st Hleft.
  - rewrite wait_ready_loop_timeout by lia. discriminate.
  - destruct (Z.lt_ge_cases (now (world st) - start) (timeout (self st)))
      as [Hlt | Hge].
    2:{ rewrite wait_ready_loop_timeout by exact Hge. discriminate. }
    destruct (_send_request env "GET" (format_str (session_url (self st))) None
                default_max_retries st) as [[response | e |] st1] eqn:Hsend.
    + pose proof (send_request_self_eq env _ _ _ _ _ _ _ Hsend) as Hself.
      pose proof (send_request_clock _ _ _ _ _ _ _ Hsend) as Hclock.
      assert (Hgo : fst ((time_sleep poll_interval ;;;
                          wait_ready_loop env fuel poll_interval start) st1)
                    <> OutOfFuel).
      { apply sleep_then_ends. apply IH. simpl. rewrite Hself. nia. }
      rewrite (wait_ready_loop_step env poll_interval start fuel st st1 response
                 Hlt Hsend).
      destruct (read_state response) as [| e | v]; [exact Hgo | discriminate |].
      destruct (json_is_str v "idle"); [discriminate|].
      destruct (json_in_strs v _); [discriminate | exact Hgo].
    + rewrite (wait_ready_loop_raise env poll_interval start fuel st st1 e Hlt Hsend).
      discriminate.
    + exfalso. apply (send_request_total env "GET"
                        (format_str (session_url (self st))) None
                        default_max_retries st).
      rewrite Hsend. reflexivity.
Qed.

Lemma statement_loop_ends (location : string) (fuel : nat) :
  forall st,
    timeout (self st) - (now (world st) - start) <= Z.of_nat fuel * poll_interval ->
    fst (statement_loop env fuel location poll_interval start st) <> OutOfFuel.
Proof.
  induction fuel as [|fuel IH]; intros st Hleft.
  - rewrite statement_loop_timeout by lia. discriminate.
  - destruct (Z.lt_ge_cases (now (world st) - start) (timeout (self st)))
      as [Hlt | Hge].
    2:{ rewrite statement_loop_timeout by exact Hge. discriminate. }
    destruct (_send_request env "GET" location None default_max_retries st)
      as [[response | e |] st1] eqn:Hsend.
    + pose proof (send_request_self_eq env _ _ _ _ _ _ _ Hsend) as Hself.
      pose proof (send_request_clock _ _ _ _ _ _ _ Hsend) as Hclock.
      assert (Hgo : fst ((time_sleep poll_interval ;;;
                          statement_loop env fuel location poll_interval start) st1)
                    <> OutOfFuel).
      { apply sleep_then_ends. apply IH. simpl. rewrite Hself. nia. }
      rewrite (statement_loop_step env poll_interval start fuel location st st1
                 response Hlt Hsend).
      destruct (read_state response) as [| e | v]; [exact Hgo | discriminate |].
      destruct (json_is_str v "available"); [discriminate|].
      destruct (json_in_strs v _); [discriminate | exact Hgo].
    + rewrite (statement_loop_raise env poll_interval start fuel location st st1 e
                 Hlt Hsend).
      discriminate.
    + exfalso. apply (send_request_total env "GET" location None
                        default_max_retries st).
      rewrite Hsend. reflexivity.
Qed.

End Clock.

(** X15: the polling operations end.  With a positive poll interval and a
    service whose exchanges take no negative time, [wait_for_session_ready]
    and [get_statement_result] have returned or raised after at most [n]
    polls, for any [n] with [n * poll_interval >= timeout]: at most
    [timeout / poll_interval], rounded up. *)
Theorem polling_ends_within_timeout
    (env : Env) (st : State) (poll_interval : Z) (location : string) (n : nat) :
  latencies_nonnegative env ->
  0 < poll_interval ->
  timeout (self st) <= Z.of_nat n * poll_interval ->
  fst (wait_for_session_ready env n poll_interval st) <> OutOfFuel
  /\ fst (get_statement_result env n location poll_interval st) <> OutOfFuel.
Proof.
  intros Hlat Hpi Hn. split.
  - unfold wait_for_session_ready, bind, get_self, time_time.
    destruct (not_str (session_url (self st))); [discriminate|].
    apply wait_ready_loop_ends; auto. lia.
  - rewrite get_statement_result_unfold.
    apply statement_loop_ends; auto. lia.
Qed.

Lemma polling_env_latencies (states : list string) (final : string) :
  latencies_nonnegative (polling_env states final).
Proof.
  intros i req. simpl. lia.
Qed.

Lemma polling_ends_within_timeout_witness :
  fst (wait_for_session_ready (polling_env [] "starting") 60 5
         (session_state "/sessions/1")) <> OutOfFuel
  /\ fst (get_statement_result (polling_env [] "starting") 60
            "/sessions/1/statements/0" 5 (session_state "/sessions/1"))
     <> OutOfFuel.
Proof.
  apply (polling_ends_within_timeout (polling_env [] "starting")
           (session_state "/sessions/1") 5 "/sessions/1/statements/0" 60).
  - apply polling_env_latencies.
  - lia.
  - vm_compute. discriminate.
Defined.

(** ** The example run *)

Lemma main_finally_cases (env : Env) (sc : State * Console) :
  main_finally env sc
  = if negb (not_str (session_url (self (fst sc)))) then
      match delete_session env (fst sc) with
      | (Return _, st') => (Return tt, (st', snd sc ++ [PCleaned]))
      | (Raise e, st') => (Raise e, (st', snd sc))
      | (OutOfFuel, st') => (OutOfFuel, (st', snd sc))
      end
    else (Return tt, sc).
Proof.
  unfold main_finally, bindP, call, print.
  destruct (negb (not_str (session_url (self (fst sc))))); [|reflexivity].
  destruct (delete_session env (fst sc)) as [[b | e |] st']; reflexivity.
Qed.




(** A held session is deleted whenever the service accepts every DELETE. *)
Lemma delete_session_accepted (env : Env) (st : State) (u : string) :
  signer_works env ->
  accepts_delete env ->
  session_url (self st) = Some u ->
  u <> "" ->
  exists st',
    delete_session env st = (Return true, st') /\ session_url (self st') = None.
Proof.
  intros Hsign Hdel Hurl Hu.
  destruct (next_reply_exchange env "DELETE" (endpoint (self st) ++ u)%string None
              Hsign st) as (prepped & _ & Hnext).
  destruct (Hdel (sent (world st)) (wire_request "DELETE" prepped None) eq_refl)
    as (lat & r & Hreply & H2xx).
  rewrite Hreply in Hnext.
  assert (Hsend : _send_request env "DELETE" u None default_max_retries st
                  = (Return (Some r),
                     after_attempt env "DELETE" (endpoint (self st) ++ u)%string
                       None st (Responds lat r))).
  { rewrite send_request_unfold.
    change (Z.to_nat default_max_retries) with 3%nat.
    apply send_loop_final_status; auto. unfold default_max_retries. lia. }
  rewrite (delete_session_success env st _ u r Hurl Hu Hsend H2xx).
  eexists. split; reflexivity.
Qed.

Lemma create_session_ends (env : Env) (st : State) :
  fst (create_session env st) <> OutOfFuel.
Proof.
  rewrite create_session_unfold.
  pose proof (send_request_total env "POST" "/sessions"
                (Some (session_request_data (self st))) default_max_retries st) as H.
  destruct (_send_request env "POST" "/sessions" _ default_max_retries st)
    as [[[r|] | e |] st1]; cbn [fst] in *; try discriminate; [|contradiction].
  destruct (negb (response_ok r) || (300 <=? status_code r)); [discriminate|].
  cbn zeta. destruct (not_str _); [discriminate|].
  unfold response_json. destruct (json_body r); discriminate.
Qed.

Lemma create_session_timeout (env : Env) (st : State) :
  timeout (self (snd (create_session env st))) = timeout (self st).
Proof.
  rewrite create_session_unfold.
  destruct (_send_request env "POST" "/sessions" _ default_max_retries st)
    as [[[r|] | e |] st1] eqn:Hsend;
    pose proof (send_request_self_eq env _ _ _ _ _ _ _ Hsend) as Hself;
    cbn [snd]; try (rewrite Hself; reflexivity).
  destruct (negb (response_ok r) || (300 <=? status_code r));
    [cbn [snd]; rewrite Hself; reflexivity|].
  cbn zeta. destruct (not_str _); [cbn; rewrite Hself; reflexivity|].
  unfold response_json. destruct (json_body r); cbn; rewrite Hself; reflexivity.
Qed.

Lemma delete_session_ends (env : Env) (st : State) :
  fst (delete_session env st) <> OutOfFuel.
Proof.
  unfold delete_session, bind, get_self.
  destruct (not_str (session_url (self st))); [discriminate|].
  pose proof (send_request_total env "DELETE" (format_str (session_url (self st)))
                None default_max_retries st) as H.
  destruct (_send_request env "DELETE" _ None default_max_retries st)
    as [[[r|] | e |] st1]; cbn [fst] in *; try discriminate; [|contradiction].
  destruct (negb (response_ok r) || (300 <=? status_code r)); discriminate.
Qed.

Lemma list_sessions_ends (env : Env) (st : State) :
  fst (list_sessions env st) <> OutOfFuel.
Proof.
  rewrite list_sessions_unfold.
  pose proof (send_request_total env "GET" "/sessions" None default_max_retries st)
    as H.
  destruct (_send_request env "GET" "/sessions" None default_max_retries st)
    as [[[r|] | e |] st1]; cbn [fst] in *; try discriminate; [|contradiction].
  destruct (negb (response_ok r) || (300 <=? status_code r)); [discriminate|].
  destruct (json_body r); discriminate.
Qed.

Lemma list_sessions_self (env : Env) (st : State) :
  self (snd (list_sessions env st)) = self st.
Proof.
  rewrite list_sessions_unfold.
  destruct (_send_request env "GET" "/sessions" None default_max_retries st)
    as [[[r|] | e |] st1] eqn:Hsend;
    pose proof (send_request_self_eq env _ _ _ _ _ _ _ Hsend) as Hself;
    try exact Hself.
  destruct (negb (response_ok r) || (300 <=? status_code r)); [exact Hself|].
  destruct (json_body r); exact Hself.
Qed.

Lemma submit_statement_ends (env : Env) (code : string) (st : State) :
  fst (submit_statement env code st) <> OutOfFuel.
Proof.
  unfold submit_statement, bind, get_self.
  destruct (not_str (session_url (self st))); [discriminate|].
  match goal with |- context [_send_request env "POST" ?p ?d ?m st] =>
    pose proof (send_request_total env "POST" p d m st) as H;
    destruct (_send_request env "POST" p d m st) as [[[r|] | e |] st1]
  end; cbn [fst] in *; try discriminate; [|contradiction].
  destruct (negb (response_ok r) || (300 <=? status_code r)); [discriminate|].
  destruct (not_str (headers_get "location" (resp_headers r))); [discriminate|].
  unfold response_json. destruct (json_body r); discriminate.
Qed.

Lemma wait_for_session_ready_self (env : Env) (fuel : nat) (poll_interval : Z)
    (st : State) :
  self (snd (wait_for_session_ready env fuel poll_interval st)) = self st.
Proof.
  unfold wait_for_session_ready, bind, get_self, time_time.
  destruct (not_str (session_url (self st))); [reflexivity|].
  apply wait_ready_loop_self.
Qed.

Lemma wait_for_session_ready_ends (env : Env) (fuel : nat) (poll_interval : Z)
    (st : State) :
  latencies_nonnegative env ->
  0 < poll_interval ->
  timeout (self st) <= Z.of_nat fuel * poll_interval ->
  fst (wait_for_session_ready env fuel poll_interval st) <> OutOfFuel.
Proof.
  intros Hlat Hpi Hn.
  unfold wait_for_session_ready, bind, get_self, time_time.
  destruct (not_str (session_url (self st))); [discriminate|].
  apply wait_ready_loop_ends; auto. lia.
Qed.

Lemma get_statement_result_ends (env : Env) (fuel : nat) (location : string)
    (poll_interval : Z) (st : State) :
  latencies_nonnegative env ->
  0 < poll_interval ->
  timeout (self st) <= Z.of_nat fuel * poll_interval ->
  fst (get_statement_result env fuel location poll_interval st) <> OutOfFuel.
Proof.
  intros Hlat Hpi Hn. rewrite get_statement_result_unfold.
  apply statement_loop_ends; auto. lia.
Qed.

Lemma get_statement_result_self (env : Env) (fuel : nat) (location : string)
    (poll_interval : Z) (st : State) :
  self (snd (get_statement_result env fuel location poll_interval st)) = self st.
Proof.
  rewrite get_statement_result_unfold. apply statement_loop_self.
Qed.

(** With fuel for the longest wait, the [try] block of [main] comes to an
    end. *)
Lemma main_try_ends (env : Env) (fuel : nat) (st : State) (out : Console) :
  latencies_nonnegative env ->
  timeout (self st) <= Z.of_nat fuel * 2 ->
  fst (main_try env fuel (st, out)) <> OutOfFuel.
Proof.
  intros Hlat Hfuel.
  unfold main_try, bindP, call, print, retP. cbn [fst snd].
  pose proof (create_session_ends env st) as E1.
  pose proof (create_session_timeout env st) as T1.
  destruct (create_session env st) as [[info | e |] st1]; cbn [fst snd] in *;
    [| discriminate | contradiction].
  pose proof (wait_for_session_ready_ends env fuel 5 st1 Hlat ltac:(lia)
                ltac:(lia)) as E2.
  pose proof (wait_for_session_ready_self env fuel 5 st1) as S2.
  destruct (wait_for_session_ready env fuel 5 st1) as [[ready | e |] st2];
    cbn [fst snd] in *; [| discriminate | contradiction].
  destruct ready; cbn [negb fst snd].
  - pose proof (list_sessions_ends env st2) as E3.
    pose proof (list_sessions_self env st2) as S3.
    destruct (list_sessions env st2) as [[sessions | e |] st3]; cbn [fst snd] in *;
      [| discriminate | contradiction].
    pose proof (submit_statement_ends env "1 + 1" st3) as E4.
    pose proof (submit_statement_self env "1 + 1" st3) as S4.
    destruct (submit_statement env "1 + 1" st3) as [[[loc info1] | e |] st4];
      cbn [fst snd] in *; [| discriminate | contradiction].
    assert (T4 : timeout (self st4) <= Z.of_nat fuel * 2)
      by (rewrite S4, S3, S2, T1; exact Hfuel).
    pose proof (get_statement_result_ends env fuel loc 2 st4 Hlat ltac:(lia) T4)
      as E5.
    pose proof (get_statement_result_self env fuel loc 2 st4) as S5.
    destruct (get_statement_result env fuel loc 2 st4) as [[result | e |] st5];
      cbn [fst snd] in *; [| discriminate | contradiction].
    pose proof (submit_statement_ends env complex_code st5) as E6.
    pose proof (submit_statement_self env complex_code st5) as S6.
    destruct (submit_statement env complex_code st5) as [[[loc2 info2] | e |] st6];
      cbn [fst snd] in *; [| discriminate | contradiction].
    assert (T6 : timeout (self st6) <= Z.of_nat fuel * 2)
      by (rewrite S6, S5; exact T4).
    pose proof (get_statement_result_ends env fuel loc2 2 st6 Hlat ltac:(lia) T6)
      as E7.
    destruct (get_statement_result env fuel loc2 2 st6) as [[result2 | e |] st7];
      cbn [fst snd] in *; [discriminate | discriminate | contradiction].
  - pose proof (delete_session_ends env st2) as E3.
    destruct (delete_session env st2) as [[b | e |] st3]; cbn [fst snd] in *;
      [discriminate | discriminate | contradiction].
Qed.

Lemma not_str_false (s : option string) :
  not_str s = false -> exists u, s = Some u /\ u <> "".
Proof.
  destruct s as [u|]; simpl; [|discriminate].
  intros H. exists u. split; [reflexivity|]. apply String.eqb_neq. exact H.
Qed.

(** X17: [main] leaves no session behind.  When the signer works, the service
    accepts every DELETE, no exchange takes a negative time and the fuel
    covers the longest wait (300 seconds in polls 2 seconds apart), [main]
    returns normally and the client holds no session at the end, whatever the
    service answers to the other requests. *)
Theorem main_leaves_no_session
    (env : Env) (fuel : nat) (w : World) :
  signer_works env ->
  accepts_delete env ->
  latencies_nonnegative env ->
  default_timeout <= Z.of_nat fuel * 2 ->
  let res := main env fuel w in
  fst res = Return tt
  /\ not_str (session_url (self (fst (snd res)))) = true.
Proof.
  intros Hsign Hdel Hlat Hfuel res. subst res.
  assert (Hfin : forall sc,
            fst (main_finally env sc) = Return tt
            /\ not_str (session_url (self (fst (snd (main_finally env sc))))) = true).
  { intros sc. rewrite main_finally_cases.
    destruct (not_str (session_url (self (fst sc)))) eqn:Hheld; cbn [negb].
    - split; [reflexivity | exact Hheld].
    - destruct (not_str_false _ Hheld) as (u & Hurl & Hu).
      destruct (delete_session_accepted env (fst sc) u Hsign Hdel Hurl Hu)
        as (st' & Hres & Hnone).
      rewrite Hres. cbn [fst snd]. rewrite Hnone. split; reflexivity. }
  unfold main.
  match goal with |- context [main_try env fuel (?s, ?o)] =>
    pose proof (main_try_ends env fuel s o Hlat Hfuel) as Hends;
    destruct (main_try env fuel (s, o)) as [[u | e |] sc] eqn:Htry
  end.
  - apply Hfin.
  - apply Hfin.
  - exfalso. apply Hends. exact (f_equal fst Htry).
Qed.

Lemma demo_env_accepts_delete : accepts_delete demo_env.
Proof.
  intros i req Hreq.
  do 8 (destruct i as [|i]; [eexists _, _; split; reflexivity|]).
  eexists _, _. split; reflexivity.
Qed.

Lemma main_leaves_no_session_witness :
  let res := main demo_env 150 fresh_world in
  fst res = Return tt
  /\ not_str (session_url (self (fst (snd res)))) = true.
Proof.
  apply (main_leaves_no_session demo_env 150 fresh_world).
  - exact demo_env_signer_works.
  - exact demo_env_accepts_delete.
  - intros i req. simpl. do 8 (destruct i as [|i]; [simpl; lia|]). simpl. lia.
  - vm_compute. discriminate.
Defined.

Lemma delete_session_result (env : Env) (st st' : State) (b : bool) :
  delete_session env st = (Return b, st') ->
  (b = true -> session_url (self st') = None)
  /\ (b = false -> self st' = self st).
Proof.
  unfold delete_session, bind, get_self.
  destruct (not_str (session_url (self st))).
  - intros H. injection H as Hb Hst. subst. split; [discriminate | reflexivity].
  - destruct (_send_request env "DELETE" _ None default_max_retries st)
      as [[[r|] | e |] st1] eqn:Hsend;
      pose proof (send_request_self_eq env _ _ _ _ _ _ _ Hsend) as Hself;
      try discriminate.
    + destruct (negb (response_ok r) || (300 <=? status_code r));
        unfold ret, put_session_url; intros H; injection H as Hb Hst; subst.
      * split; [discriminate | intros _; exact Hself].
      * split; [reflexivity | discriminate].
    + unfold ret. intros H. injection H as Hb Hst. subst.
      split; [discriminate | intros _; exact Hself].
Qed.

(** X18: the path of [main] for a session that does not become ready.  When
    the session was created and the wait returns [False], [main] prints the
    session information and the not-ready message, deletes the session and
    submits nothing.  If that deletion returns [True], nothing more happens;
    if it returns [False], the session is still held, the [finally] block
    tries the deletion once more and prints its cleanup message whatever that
    second deletion returns. *)
Theorem main_when_session_not_ready
    (env : Env) (fuel : nat) (w : World) (info : JSON) (st1 st2 st3 : State)
    (b : bool) :
  create_session env
    {| self := init "00fqi5n5j9ctg90l" "us-west-2"
                 "arn:aws:iam::808577411626:role/emrServerlessLivyTestRole"
                 default_timeout;
       world := w |} = (Return info, st1) ->
  wait_for_session_ready env fuel 5 st1 = (Return false, st2) ->
  delete_session env st2 = (Return b, st3) ->
  (b = true ->
   main env fuel w = (Return tt, (st3, [PSessionInfo info; PNotReady])))
  /\ (b = false ->
      forall b' st4,
        delete_session env st3 = (Return b', st4) ->
        main env fuel w
        = (Return tt, (st4, [PSessionInfo info; PNotReady; PCleaned]))).
Proof.
  intros Hcreate Hwait Hdelete.
  assert (Htry : main_try env fuel
                   ({| self := init "00fqi5n5j9ctg90l" "us-west-2"
                                 "arn:aws:iam::808577411626:role/emrServerlessLivyTestRole"
                                 default_timeout;
                       world := w |}, [])
                 = (Return tt, (st3, [PSessionInfo info; PNotReady]))).
  { unfold main_try, bindP, call, print, retP. cbn [fst snd].
    rewrite Hcreate. cbn [fst snd]. rewrite Hwait. cbn [negb fst snd].
    rewrite Hdelete. reflexivity. }
  destruct (delete_session_result env st2 st3 b Hdelete) as [Htrue Hfalse].
  unfold main. rewrite Htry. rewrite main_finally_cases. cbn [fst snd].
  split.
  - intros Hb. rewrite (Htrue Hb). reflexivity.
  - intros Hb b' st4 Hagain.
    assert (Hheld : not_str (session_url (self st3)) = false).
    { rewrite (Hfalse Hb).
      pose proof (wait_for_session_ready_self env fuel 5 st1) as Hself.
      rewrite Hwait in Hself. cbn [snd] in Hself. rewrite Hself.
      destruct (not_str (session_url (self st1))) eqn:Hno; [|reflexivity].
      destruct (operations_without_session env st1 fuel 5 "" Hno) as (Hraise & _).
      rewrite Hraise in Hwait. discriminate. }
    rewrite Hheld, Hagain. reflexivity.
Qed.

Lemma main_when_session_not_ready_witness :
  let st1 := snd (create_session dead_env sample_state) in
  let st2 := snd (wait_for_session_ready dead_env 150 5 st1) in
  let st3 := snd (delete_session dead_env st2) in
  main dead_env 150 fresh_world
  = (Return tt,
     (st3, [PSessionInfo (JDict [("id", JNum 1); ("state", JStr "starting")]);
            PNotReady])).
Proof.
  intros st1 st2 st3.
  apply (proj1 (main_when_session_not_ready dead_env 150 fresh_world
                  (JDict [("id", JNum 1); ("state", JStr "starting")])
                  st1 st2 st3 true
                  ltac:(vm_compute; reflexivity)
                  ltac:(vm_compute; reflexivity)
                  ltac:(vm_compute; reflexivity))).
  reflexivity.
Defined.

(** ** What the operations send, and what their exceptions say *)

Lemma submit_statement_unfold (env : Env) (code : string) (st : State) (u : string) :
  session_url (self st) = Some u ->
  u <> "" ->
  submit_statement env code st
  = match _send_request env "POST" (u ++ "/statements")%string
            (Some (JDict [("code", JStr code)])) default_max_retries st with
    | (Return None, st1) => (Raise (PyException (SubmitStatementFailed None)), st1)
    | (Return (Some r), st1) =>
        if negb (response_ok r) || (300 <=? status_code r)
        then (Raise (PyException (SubmitStatementFailed (detail_of r))), st1)
        else
          let location := headers_get "location" (resp_headers r) in
          if not_str location then (Raise (PyException NoStatementLocation), st1)
          else match json_body r with
               | Some body => (Return (format_str location, body), st1)
               | None => (Raise JSONDecodeError, st1)
               end
    | (Raise e, st1) => (Raise e, st1)
    | (OutOfFuel, st1) => (OutOfFuel, st1)
    end.
Proof.
  intros Hurl Hu. unfold submit_statement, bind, get_self.
  rewrite Hurl, (not_str_active u Hu). cbn [format_str].
  destruct (_send_request env "POST" _ _ default_max_retries st)
    as [[[r|] | e |] st1]; try reflexivity.
  destruct (negb (response_ok r) || (300 <=? status_code r)); [reflexivity|].
  cbn zeta. destruct (not_str (headers_get "location" (resp_headers r)));
    [reflexivity|].
  unfold response_json. destruct (json_body r); reflexivity.
Qed.

(** X19: what the exceptions of [create_session] and [submit_statement] say
    about a failed request.  The text of the response is carried only for a
    status from 300 on that is not a 4xx or 5xx; for a 4xx or 5xx response
    the exception is the very one raised when there is no response at all,
    since such a response is false as a condition. *)
Theorem failed_request_exceptions
    (env : Env) (st : State) (code u : string) :
  session_url (self st) = Some u ->
  u <> "" ->
  let created :=
    _send_request env "POST" "/sessions" (Some (session_request_data (self st)))
      default_max_retries st in
  let submitted :=
    _send_request env "POST" (u ++ "/statements")%string
      (Some (JDict [("code", JStr code)])) default_max_retries st in
  let shown (r : Response) :=
    if (400 <=? status_code r) && (status_code r <? 600) then None
    else Some (text r) in
  (fst created = Return None ->
   fst (create_session env st) = Raise (PyException (CreateSessionFailed None)))
  /\ (forall r,
        fst created = Return (Some r) ->
        300 <= status_code r ->
        fst (create_session env st)
        = Raise (PyException (CreateSessionFailed (shown r))))
  /\ (fst submitted = Return None ->
      fst (submit_statement env code st)
      = Raise (PyException (SubmitStatementFailed None)))
  /\ (forall r,
        fst submitted = Return (Some r) ->
        300 <= status_code r ->
        fst (submit_statement env code st)
        = Raise (PyException (SubmitStatementFailed (shown r)))).
Proof.
  intros Hurl Hu created submitted shown.
  assert (Hshown : forall r, detail_of r = shown r).
  { intros r. unfold detail_of, shown, response_ok.
    destruct ((400 <=? status_code r) && (status_code r <? 600)); reflexivity. }
  rewrite create_session_unfold, (submit_statement_unfold env code st u Hurl Hu).
  fold created submitted.
  destruct created as [oc stc], submitted as [os sts]. cbn [fst].
  repeat split.
  - intros H. subst oc. reflexivity.
  - intros r H Hst. subst oc. rewrite (status_ge_300_rejected r Hst), Hshown.
    reflexivity.
  - intros H. subst os. reflexivity.
  - intros r H Hst. subst os. rewrite (status_ge_300_rejected r Hst), Hshown.
    reflexivity.
Qed.

Lemma failed_request_exceptions_witness :
  fst (create_session (scripted_env [] 404) (session_state "/sessions/1"))
  = Raise (PyException (CreateSessionFailed None))
  /\ fst (create_session (scripted_env [] 503) (session_state "/sessions/1"))
     = Raise (PyException (CreateSessionFailed None)).
Proof.
  split.
  - apply (proj1 (proj2 (failed_request_exceptions (scripted_env [] 404)
                           (session_state "/sessions/1") "1 + 1" "/sessions/1"
                           eq_refl ltac:(discriminate)))
             (status_response 404)).
    + vm_compute. reflexivity.
    + simpl. lia.
  - apply (proj1 (failed_request_exceptions (scripted_env [] 503)
                    (session_state "/sessions/1") "1 + 1" "/sessions/1"
                    eq_refl ltac:(discriminate))).
    vm_compute. reflexivity.
Defined.

(** A turn of the dispatcher loop starts by signing the request built from
    its arguments. *)
Lemma send_loop_first_sign (env : Env) (method url : string)
    (data : option JSON) (max_retries : Z) (k : nat) (rc : Z) (st : State) :
  rc < max_retries ->
  exists rest,
    trace (world (snd (send_loop env (S k) method url data max_retries rc st)))
    = trace (world st)
      ++ ESign (now (world st)) (unsigned_request (self st) method url data) :: rest.
Proof.
  intros Hlt. simpl. apply Z.ltb_lt in Hlt. rewrite Hlt.
  run_monad. fold (unsigned_request (self st) method url data).
  destruct (add_auth env (now (world st)) _) as [prepped|];
    [|exists []; reflexivity].
  destruct (supported method); [|exists []; reflexivity]. simpl.
  destruct (exchange env (sent (world st)) _) as [lat | lat r]; cbn [latency_of].
  - destruct (rc + 1 <? max_retries).
    2:{ eexists. simpl. rewrite <- app_assoc. reflexivity. }
    rewrite pow2_not_negative.
    match goal with |- context [send_loop env k _ _ _ _ _ ?s] =>
      destruct (send_loop_shape env method url data max_retries k (rc + 1) s)
        as (evs & Htr & _) end.
    rewrite Htr. simpl. eexists. rewrite <- !app_assoc. reflexivity.
  - destruct ((200 <=? status_code r) && (status_code r <? 300)).
    { eexists. simpl. rewrite <- app_assoc. reflexivity. }
    destruct (retryable (status_code r)).
    2:{ eexists. simpl. rewrite <- app_assoc. reflexivity. }
    rewrite pow2_not_negative.
    match goal with |- context [send_loop env k _ _ _ _ _ ?s] =>
      destruct (send_loop_shape env method url data max_retries k (rc + 1) s)
        as (evs & Htr & _) end.
    rewrite Htr. simpl. eexists. rewrite <- !app_assoc. reflexivity.
Qed.

Lemma send_request_first_sign (env : Env) (method path : string)
    (data : option JSON) (max_retries : Z) (st : State) :
  1 <= max_retries ->
  exists rest,
    trace (world (snd (_send_request env method path data max_retries st)))
    = trace (world st)
      ++ ESign (now (world st))
           (unsigned_request (self st) method (endpoint (self st) ++ path)%string
              data) :: rest.
Proof.
  intros Hmax. rewrite send_request_unfold.
  assert (Hfuel : exists k, Z.to_nat max_retries = S k).
  { exists (Z.to_nat max_retries - 1)%nat. lia. }
  destruct Hfuel as (k & Hfuel). rewrite Hfuel.
  apply send_loop_first_sign. lia.
Qed.

Lemma create_session_world (env : Env) (st : State) :
  world (snd (create_session env st))
  = world (snd (_send_request env "POST" "/sessions"
                  (Some (session_request_data (self st))) default_max_retries st)).
Proof.
  rewrite create_session_unfold.
  destruct (_send_request env "POST" "/sessions" _ default_max_retries st)
    as [[[r|] | e |] st1]; try reflexivity.
  destruct (negb (response_ok r) || (300 <=? status_code r)); [reflexivity|].
  cbn zeta. destruct (not_str _); [reflexivity|].
  unfold response_json. destruct (json_body r); reflexivity.
Qed.

Lemma list_sessions_world (env : Env) (st : State) :
  world (snd (list_sessions env st))
  = world (snd (_send_request env "GET" "/sessions" None default_max_retries st)).
Proof.
  rewrite list_sessions_unfold.
  destruct (_send_request env "GET" "/sessions" None default_max_retries st)
    as [[[r|] | e |] st1]; try reflexivity.
  destruct (negb (response_ok r) || (300 <=? status_code r)); [reflexivity|].
  destruct (json_body r); reflexivity.
Qed.

Lemma submit_statement_world (env : Env) (code : string) (st : State) (u : string) :
  session_url (self st) = Some u ->
  u <> "" ->
  world (snd (submit_statement env code st))
  = world (snd (_send_request env "POST" (u ++ "/statements")%string
                  (Some (JDict [("code", JStr code)])) default_max_retries st)).
Proof.
  intros Hurl Hu. rewrite (submit_statement_unfold env code st u Hurl Hu).
  destruct (_send_request env "POST" _ _ default_max_retries st)
    as [[[r|] | e |] st1]; try reflexivity.
  destruct (negb (response_ok r) || (300 <=? status_code r)); [reflexivity|].
  cbn zeta. destruct (not_str _); [reflexivity|].
  destruct (json_body r); reflexivity.
Qed.

Lemma delete_session_world (env : Env) (st : State) (u : string) :
  session_url (self st) = Some u ->
  u <> "" ->
  world (snd (delete_session env st))
  = world (snd (_send_request env "DELETE" u None default_max_retries st)).
Proof.
  intros Hurl Hu. rewrite (delete_session_unfold env st u Hurl Hu).
  destruct (_send_request env "DELETE" u None default_max_retries st)
    as [[[r|] | e |] st1]; try reflexivity.
  destruct (negb (response_ok r) || (300 <=? status_code r)); reflexivity.
Qed.

(** X20: the request each operation signs first.  [create_session] signs a
    POST to the endpoint followed by [/sessions], with the dictionary of
    kind, heartbeat and role as body; [list_sessions] a GET to the same URL
    without body; with a session held at [u], [submit_statement] signs a POST
    to the endpoint followed by [u] and [/statements] with the code as body,
    and [delete_session] a DELETE to the endpoint followed by [u] without
    body.  All of them carry the headers of the object. *)
Theorem first_request_of_each_operation
    (env : Env) (st : State) (u code : string) :
  session_url (self st) = Some u ->
  u <> "" ->
  let signed (method path : string) (data : option JSON) :=
    ESign (now (world st))
      {| req_method := method;
         req_url := (endpoint (self st) ++ path)%string;
         req_data := data;
         req_headers := headers (self st) |} in
  (exists rest,
     trace (world (snd (create_session env st)))
     = trace (world st)
       ++ signed "POST" "/sessions"
            (Some (JDict [("kind", JStr "pyspark");
                          ("heartbeatTimeoutInSecond", JNum 60);
                          ("conf",
                           JDict [("emr-serverless.session.executionRoleArn",
                                   JStr (role_arn (self st)))])]))
          :: rest)
  /\ (exists rest,
        trace (world (snd (list_sessions env st)))
        = trace (world st) ++ signed "GET" "/sessions" None :: rest)
  /\ (exists rest,
        trace (world (snd (submit_statement env code st)))
        = trace (world st)
          ++ signed "POST" (u ++ "/statements")%string
               (Some (JDict [("code", JStr code)])) :: rest)
  /\ (exists rest,
        trace (world (snd (delete_session env st)))
        = trace (world st) ++ signed "DELETE" u None :: rest).
Proof.
  intros Hurl Hu signed. subst signed.
  assert (Hmax : 1 <= default_max_retries) by (unfold default_max_retries; lia).
  repeat split.
  - rewrite create_session_world.
    exact (send_request_first_sign env "POST" "/sessions"
             (Some (session_request_data (self st))) default_max_retries st Hmax).
  - rewrite list_sessions_world.
    exact (send_request_first_sign env "GET" "/sessions" None
             default_max_retries st Hmax).
  - rewrite (submit_statement_world env code st u Hurl Hu).
    exact (send_request_first_sign env "POST" (u ++ "/statements")%string
             (Some (JDict [("code", JStr code)])) default_max_retries st Hmax).
  - rewrite (delete_session_world env st u Hurl Hu).
    exact (send_request_first_sign env "DELETE" u None default_max_retries st Hmax).
Qed.

Lemma first_request_of_each_operation_witness :
  exists rest,
    trace (world (snd (submit_statement demo_env "1 + 1"
                         (session_state "/sessions/1"))))
    = ESign 0
        {| req_method := "POST";
           req_url := "https://00fqi5n5j9ctg90l.livy.emr-serverless-services.us-west-2.amazonaws.com/sessions/1/statements";
           req_data := Some (JDict [("code", JStr "1 + 1")]);
           req_headers := [("Content-Type", "application/json")] |}
      :: rest.
Proof.
  exact (proj1 (proj2 (proj2 (first_request_of_each_operation demo_env
                                (session_state "/sessions/1") "/sessions/1" "1 + 1"
                                eq_refl ltac:(discriminate))))).
Defined.
